(** * DayForge: the API service layer and the TodoAssistant controller

    A shallow embedding of [services/api.ts] (the axios client with its
    token-attaching request interceptor and the five typed operations) and of
    the state handlers of [components/TodoAssistant.tsx], followed by the
    properties the specification states about them.

    Conventions.
    - A JavaScript string is a Rocq [string], one character per code unit;
      code units above U+00FF are outside the model.
    - [async] code is a program of the free monad [Prog]: state setters,
      [console.error] and requests through [apiClient] are its effects, and a
      rejected promise is a value [inl error].  [run] executes a program
      against a backend, one handler at a time (no interleaving).
    - A handler is a closure over the values of one render: it takes the
      [State] it was created in as its first argument. *)

From Stdlib Require Import Ascii String ZArith.
From stdpp Require Import base strings list gmap.

(** ** types.ts *)

Inductive Priority := High | Medium | Low.

(** [number]; the code only stores and forwards the values of this type. *)
Definition number := Z.

Module Todo.
Record t := mk {
  id : string;
  task : string;
  priority : Priority;
  completed : bool;
  createdAt : option string;
  updatedAt : option string;
}.
End Todo.

Module CreateTodoRequest.
Record t := mk {
  task : string;
  priority : Priority;
  completed : option bool;
}.
End CreateTodoRequest.

Module UpdateTodoRequest.
Record t := mk {
  task : option string;
  priority : option Priority;
  completed : option bool;
}.
End UpdateTodoRequest.

Module Habits.
Record t := mk {
  workStartTime : string;
  workEndTime : string;
  breakDuration : number;
  breakFrequency : number;
  focusArea : string;
}.
End Habits.

Module ScheduleItem.
Record t := mk {
  time : string;
  task : string;
  duration : string;
  breakDuration : option (string + number);
}.
End ScheduleItem.

Module ApiRequest.
Record t := mk { scopes : list string }.
End ApiRequest.

(** ** JavaScript values the code tests for truthiness *)

(** The values [x || d] replaces by [d] that a response body or an
    environment variable can hold. *)
Inductive Falsy := js_undefined | js_null | js_empty_string | js_zero | js_false.

(** [data || []] where [data] is typed as an array: an array, even an empty
    one, is truthy. *)
Definition or_empty {A} (data : Falsy + list A) : list A :=
  match data with
  | inr array => array
  | inl _ => []
  end.

(** [flag || false] for an optional boolean field. *)
Definition or_false (flag : option bool) : bool :=
  match flag with
  | Some b => b || false
  | None => false
  end.

(** [value || fallback] for an optional string. *)
Definition or_string (value : option string) (fallback : string) : string :=
  match value with
  | Some "" | None => fallback
  | Some s => s
  end.

(** White space and line terminators of [String.prototype.trim] below U+0100:
    TAB, LF, VT, FF, CR, SP and NBSP. *)
Definition isWhiteSpace (c : ascii) : bool :=
  let n := N_of_ascii c in
  ((9 <=? n) && (n <=? 13) || (n =? 32) || (n =? 160))%N.

Fixpoint trimStart (s : string) : string :=
  match s with
  | "" => ""
  | String c rest => if isWhiteSpace c then trimStart rest else s
  end.

Fixpoint trimEnd (s : string) : string :=
  match s with
  | "" => ""
  | String c rest =>
      match trimEnd rest with
      | "" => if isWhiteSpace c then "" else String c ""
      | kept => String c kept
      end
  end.

Definition trim (s : string) : string := trimEnd (trimStart s).

(** Truthiness of a string: only the empty string is falsy. *)
Definition truthy (s : string) : bool :=
  match s with
  | "" => false
  | _ => true
  end.

(** ** Errors and the console *)

Module AxiosError.
Record t := mk {
  message : string;
  (** [error.response?.data], when the backend answered at all *)
  response_data : option string;
}.
End AxiosError.

(** What a [catch] clause can receive. *)
Inductive Exn :=
| Error (message : string)
| Rejected (error : AxiosError.t).

Inductive LogArg :=
| LogText (text : string)
| LogExn (error : Exn).

(** The arguments of one [console.error(...)]. *)
Definition LogEntry := list LogArg.

(** ** The identity library (@azure/msal-browser), as the code uses it *)

Module AccountInfo.
Record t := mk {
  homeAccountId : string;
  username : string;
  name : option string;
}.
End AccountInfo.

Module SilentRequest.
Record t := mk {
  scopes : list string;
  account : AccountInfo.t;
}.
End SilentRequest.

Module AuthenticationResult.
Record t := mk { accessToken : string }.
End AuthenticationResult.

Module PublicClientApplication.
Record t := mk {
  getAllAccounts : list AccountInfo.t;
  acquireTokenSilent : SilentRequest.t → Exn + AuthenticationResult.t;
}.
End PublicClientApplication.

(** ** authConfig.ts *)

Definition apiRequest (env : gmap string string) : ApiRequest.t :=
  ApiRequest.mk
    [or_string (env !! "REACT_APP_API_SCOPE") "api://<YOUR_API_CLIENT_ID>/.default"].

(** ** HTTP requests and responses *)

Inductive Method := GET | POST | PUT | DELETE.

Inductive Payload :=
| NoPayload
| CreatePayload (task : string) (priority : Priority) (completed : bool)
| UpdatePayload (updateData : UpdateTodoRequest.t)
| SchedulePayload (todos : list Todo.t) (habits : Habits.t).

(** The arguments of one [apiClient.get/post/put/delete] call. *)
Record Call := { call_method : Method; call_url : string; call_data : Payload }.

Module InternalAxiosRequestConfig.
Record t := mk {
  baseURL : string;
  method : Method;
  url : string;
  headers : gmap string string;
  data : Payload;
}.
End InternalAxiosRequestConfig.
Abbreviation RequestConfig := InternalAxiosRequestConfig.t.

(** The type argument of [apiClient.get<T>] and friends.  Where the code
    guards the body with [|| []] the body may also be falsy; where it uses
    the body unguarded the declared type is taken at its word. *)
Inductive RespTy := TTodos | TTodo | TSchedule | TAny.

#[global] Instance RespTy_eq_dec : EqDecision RespTy.
Proof. solve_decision. Defined.

Definition respData (T : RespTy) : Type :=
  match T with
  | TTodos => Falsy + list Todo.t
  | TTodo => Todo.t
  | TSchedule => Falsy + list ScheduleItem.t
  | TAny => unit
  end.

Module AxiosResponse.
Record t (T : RespTy) := mk { data : respData T; status : Z }.
Arguments data {T}.
Arguments status {T}.
End AxiosResponse.

(** ** Component state (the [useState] cells of TodoAssistant) *)

Record State := mkState {
  todos : list Todo.t;
  schedule : list ScheduleItem.t;
  loading : bool;
  error : option string;
  showSchedule : bool;
  taskInput : string;
  priorityInput : Priority;
  habits : Habits.t;
}.

Definition initialState : State := {|
  todos := [];
  schedule := [];
  loading := false;
  error := None;
  showSchedule := false;
  taskInput := "";
  priorityInput := Medium;
  habits := Habits.mk "09:00" "17:00" 15%Z 60%Z "";
|}.

(** A call of one of the setters returned by [useState], with its argument. *)
Inductive Setter :=
| TodosTo (value : list Todo.t)
| ScheduleTo (value : list ScheduleItem.t)
| LoadingTo (value : bool)
| ErrorTo (value : option string)
| ShowScheduleTo (value : bool)
| TaskInputTo (value : string)
| PriorityInputTo (value : Priority).

Definition applySetter (u : Setter) (s : State) : State :=
  match u with
  | TodosTo v =>
      mkState v (schedule s) (loading s) (error s) (showSchedule s)
        (taskInput s) (priorityInput s) (habits s)
  | ScheduleTo v =>
      mkState (todos s) v (loading s) (error s) (showSchedule s)
        (taskInput s) (priorityInput s) (habits s)
  | LoadingTo v =>
      mkState (todos s) (schedule s) v (error s) (showSchedule s)
        (taskInput s) (priorityInput s) (habits s)
  | ErrorTo v =>
      mkState (todos s) (schedule s) (loading s) v (showSchedule s)
        (taskInput s) (priorityInput s) (habits s)
  | ShowScheduleTo v =>
      mkState (todos s) (schedule s) (loading s) (error s) v
        (taskInput s) (priorityInput s) (habits s)
  | TaskInputTo v =>
      mkState (todos s) (schedule s) (loading s) (error s) (showSchedule s)
        v (priorityInput s) (habits s)
  | PriorityInputTo v =>
      mkState (todos s) (schedule s) (loading s) (error s) (showSchedule s)
        (taskInput s) v (habits s)
  end.

(** ** Asynchronous programs *)

Inductive Prog (A : Type) : Type :=
| Ret (a : A)
| SetState (u : Setter) (k : Prog A)
| ConsoleError (entry : LogEntry) (k : Prog A)
| Request (T : RespTy) (call : Call) (k : Exn + AxiosResponse.t T → Prog A).
Arguments Ret {A}.
Arguments SetState {A}.
Arguments ConsoleError {A}.
Arguments Request {A}.

Fixpoint bind {A B} (m : Prog A) (f : A → Prog B) : Prog B :=
  match m with
  | Ret a => f a
  | SetState u k => SetState u (bind k f)
  | ConsoleError entry k => ConsoleError entry (bind k f)
  | Request T call k => Request T call (λ r, bind (k r) f)
  end.

#[global] Instance Prog_ret : MRet Prog := @Ret.
#[global] Instance Prog_bind : MBind Prog := λ A B f m, bind m f.

Definition setTodos (value : list Todo.t) : Prog unit :=
  SetState (TodosTo value) (Ret ()).
Definition setSchedule (value : list ScheduleItem.t) : Prog unit :=
  SetState (ScheduleTo value) (Ret ()).
Definition setLoading (value : bool) : Prog unit :=
  SetState (LoadingTo value) (Ret ()).
Definition setError (value : option string) : Prog unit :=
  SetState (ErrorTo value) (Ret ()).
Definition setShowSchedule (value : bool) : Prog unit :=
  SetState (ShowScheduleTo value) (Ret ()).
Definition setTaskInput (value : string) : Prog unit :=
  SetState (TaskInputTo value) (Ret ()).
Definition setPriorityInput (value : Priority) : Prog unit :=
  SetState (PriorityInputTo value) (Ret ()).
Definition console_error (args : LogEntry) : Prog unit :=
  ConsoleError args (Ret ()).

(** [try { const x = await body; ok x } catch (error) { handler error }],
    for an [ok] that cannot throw. *)
Definition try_catch {A B} (body : Prog (Exn + A)) (ok : A → Prog B)
    (handler : Exn → Prog B) : Prog B :=
  bind body (λ r, match r with
                  | inr x => ok x
                  | inl error => handler error
                  end).

(** [return x] and [throw error] at the end of an [async] function. *)
Definition resolve {A} (x : A) : Prog (Exn + A) := Ret (inr x).
Definition throw {A} (error : Exn) : Prog (Exn + A) := Ret (inl error).

Definition request (T : RespTy) (method : Method) (url : string) (data : Payload)
  : Prog (Exn + AxiosResponse.t T) :=
  Request T {| call_method := method; call_url := url; call_data := data |} Ret.

(** ** services/api.ts *)

(** [config.headers[key] = value] *)
Definition set_header (key value : string) (config : RequestConfig) : RequestConfig :=
  InternalAxiosRequestConfig.mk
    (InternalAxiosRequestConfig.baseURL config)
    (InternalAxiosRequestConfig.method config)
    (InternalAxiosRequestConfig.url config)
    (<[key := value]> (InternalAxiosRequestConfig.headers config))
    (InternalAxiosRequestConfig.data config).

Definition API_BASE_URL (env : gmap string string) : string :=
  or_string (env !! "REACT_APP_API_URL") "https://todoapi.azurewebsites.net".

(** The module-level [let msalInstance] and the interceptors registered on
    [apiClient]: every [initializeApi] registers one request and one response
    interceptor, all of them the same closures over the module variable. *)
Record ApiModule := {
  msalInstance : option PublicClientApplication.t;
  interceptors : nat;
}.

Definition apiModule0 : ApiModule :=
  {| msalInstance := None; interceptors := 0 |}.

Definition initializeApi (msalInstanceParam : PublicClientApplication.t)
    (m : ApiModule) : ApiModule :=
  {| msalInstance := Some msalInstanceParam;
     interceptors := S (interceptors m) |}.

(** The request interceptor: the [try] block computes [attempt]; the [catch]
    block logs; [config] is returned either way. *)
Definition requestInterceptor (env : gmap string string)
    (msalInstance : option PublicClientApplication.t)
    (config : RequestConfig) : RequestConfig * list LogEntry :=
  let attempt : Exn + AuthenticationResult.t :=
    match msalInstance with
    | None => inl (Error "MSAL instance not initialized")
    | Some instance =>
        match PublicClientApplication.getAllAccounts instance with
        | [] => inl (Error "No user account found")
        | account0 :: _ =>
            PublicClientApplication.acquireTokenSilent instance
              (SilentRequest.mk (ApiRequest.scopes (apiRequest env)) account0)
        end
    end in
  match attempt with
  | inr response =>
      (set_header "Authorization"
         ("Bearer " +:+ AuthenticationResult.accessToken response) config, [])
  | inl error =>
      (config, [[LogText "Error acquiring token:"; LogExn error]])
  end.

(** The rejection branch of the response interceptor:
    [console.error("API Error:", error.response?.data || error.message)]. *)
Definition responseInterceptor_rejected (error : AxiosError.t) : LogEntry :=
  [LogText "API Error:";
   LogText (or_string (AxiosError.response_data error) (AxiosError.message error))].

Fixpoint runRequestInterceptors (n : nat) (env : gmap string string)
    (msalInstance : option PublicClientApplication.t)
    (config : RequestConfig) : RequestConfig * list LogEntry :=
  match n with
  | O => (config, [])
  | S n' =>
      let '(config1, logs1) := requestInterceptor env msalInstance config in
      let '(config2, logs2) := runRequestInterceptors n' env msalInstance config1 in
      (config2, logs1 ++ logs2)
  end.

(** ** The world a program runs in *)

(** How a request ended: rejected with an error, or fulfilled with a
    response of the type the caller asked for. *)
Inductive Answer :=
| Failed (error : AxiosError.t)
| Answered (T : RespTy) (response : AxiosResponse.t T).

(** One request as it left the client, and how it ended. *)
Record Exchange := {
  sent : RequestConfig;
  answer : Answer;
}.

(** The backend (and the transport to it): its answer to a request, given
    the exchanges so far. *)
Definition Backend : Type :=
  ∀ T : RespTy, list Exchange → RequestConfig → AxiosError.t + AxiosResponse.t T.

Record World := mkWorld {
  process_env : gmap string string;
  api : ApiModule;
  ui : State;
  network : list Exchange;
  console : list LogEntry;
}.

(** [apiClient.request]: instance defaults, request interceptors, the
    transport, response interceptors. *)
Definition apiClient_request (srv : Backend) (T : RespTy) (call : Call)
    (w : World) : (Exn + AxiosResponse.t T) * World :=
  let config0 :=
    InternalAxiosRequestConfig.mk (API_BASE_URL (process_env w))
      (call_method call) (call_url call)
      {["Content-Type" := "application/json"]} (call_data call) in
  let '(config, logs) :=
    runRequestInterceptors (interceptors (api w)) (process_env w)
      (msalInstance (api w)) config0 in
  match srv T (network w) config with
  | inr response =>
      (inr response,
       mkWorld (process_env w) (api w) (ui w)
         (network w ++ [{| sent := config; answer := Answered T response |}])
         (console w ++ logs))
  | inl error =>
      (inl (Rejected error),
       mkWorld (process_env w) (api w) (ui w)
         (network w ++ [{| sent := config; answer := Failed error |}])
         (console w ++ logs
            ++ replicate (interceptors (api w)) (responseInterceptor_rejected error)))
  end.

Fixpoint run {A} (srv : Backend) (p : Prog A) (w : World) : A * World :=
  match p with
  | Ret a => (a, w)
  | SetState u k =>
      run srv k
        (mkWorld (process_env w) (api w) (applySetter u (ui w)) (network w) (console w))
  | ConsoleError entry k =>
      run srv k
        (mkWorld (process_env w) (api w) (ui w) (network w) (console w ++ [entry]))
  | Request T call k =>
      let '(r, w') := apiClient_request srv T call w in
      run srv (k r) w'
  end.

Definition exec {A} (srv : Backend) (p : Prog A) (w : World) : World :=
  (run srv p w).2.

Definition getTodos : Prog (Exn + list Todo.t) :=
  try_catch (request TTodos GET "/todos" NoPayload)
    (λ response, resolve (or_empty (AxiosResponse.data response)))
    (λ error,
       console_error [LogText "Error fetching todos:"; LogExn error] ;;
       throw error).

Definition createTodo (todoData : CreateTodoRequest.t) : Prog (Exn + Todo.t) :=
  try_catch
    (request TTodo POST "/todos"
       (CreatePayload (CreateTodoRequest.task todoData)
          (CreateTodoRequest.priority todoData)
          (or_false (CreateTodoRequest.completed todoData))))
    (λ response, resolve (AxiosResponse.data response))
    (λ error,
       console_error [LogText "Error creating todo:"; LogExn error] ;;
       throw error).

Definition updateTodo (id : string) (updateData : UpdateTodoRequest.t)
  : Prog (Exn + Todo.t) :=
  try_catch (request TTodo PUT ("/todos/" +:+ id) (UpdatePayload updateData))
    (λ response, resolve (AxiosResponse.data response))
    (λ error,
       console_error [LogText "Error updating todo:"; LogExn error] ;;
       throw error).

Definition deleteTodo (id : string) : Prog (Exn + unit) :=
  try_catch (request TAny DELETE ("/todos/" +:+ id) NoPayload)
    (λ _, resolve ())
    (λ error,
       console_error [LogText "Error deleting todo:"; LogExn error] ;;
       throw error).

Definition generateSchedule (todos : list Todo.t) (habits : Habits.t)
  : Prog (Exn + list ScheduleItem.t) :=
  try_catch (request TSchedule POST "/schedule" (SchedulePayload todos habits))
    (λ response, resolve (or_empty (AxiosResponse.data response)))
    (λ error,
       console_error [LogText "Error generating schedule:"; LogExn error] ;;
       throw error).

(** ** components/TodoAssistant.tsx *)

Definition fetchTodos : Prog unit :=
  setLoading true ;;
  setError None ;;
  try_catch getTodos
    (λ data, setTodos data)
    (λ err,
       setError (Some "Failed to load tasks. Please try again.") ;;
       console_error [LogExn err]) ;;
  setLoading false.

(** [e.preventDefault()] acts on the DOM event only and is left out. *)
Definition handleAddTask (s : State) : Prog unit :=
  if negb (truthy (trim (taskInput s))) then Ret ()
  else
    setLoading true ;;
    setError None ;;
    try_catch
      (createTodo (CreateTodoRequest.mk (taskInput s) (priorityInput s) (Some false)))
      (λ newTodo,
         setTodos (todos s ++ [newTodo]) ;;
         setTaskInput "" ;;
         setPriorityInput Medium)
      (λ err,
         setError (Some "Failed to add task. Please try again.") ;;
         console_error [LogExn err]) ;;
    setLoading false.

Definition handleToggleTodo (s : State) (id : string) (currentStatus : bool)
  : Prog unit :=
  setLoading true ;;
  setError None ;;
  try_catch
    (updateTodo id (UpdateTodoRequest.mk None None (Some (negb currentStatus))))
    (λ updatedTodo,
       setTodos
         ((λ todo, if decide (Todo.id todo = id) then updatedTodo else todo)
            <$> todos s))
    (λ err,
       setError (Some "Failed to update task. Please try again.") ;;
       console_error [LogExn err]) ;;
  setLoading false.

Definition handleDeleteTodo (s : State) (id : string) : Prog unit :=
  setLoading true ;;
  setError None ;;
  try_catch (deleteTodo id)
    (λ _, setTodos (filter (λ todo, Todo.id todo ≠ id) (todos s)))
    (λ err,
       setError (Some "Failed to delete task. Please try again.") ;;
       console_error [LogExn err]) ;;
  setLoading false.

Definition handleGenerateSchedule (s : State) : Prog unit :=
  if (length (todos s) =? 0)%nat then
    setError (Some "Please add some tasks before generating a schedule.")
  else
    setLoading true ;;
    setError None ;;
    try_catch (generateSchedule (todos s) (habits s))
      (λ generatedSchedule,
         setSchedule generatedSchedule ;;
         setShowSchedule true)
      (λ err,
         setError (Some "Failed to generate schedule. Please try again.") ;;
         console_error [LogExn err]) ;;
    setLoading false.

(** The per-item buttons of the task list, rendered from [todos.map]:
    [onClick={() => handleToggleTodo(todo.id, todo.completed)}] and
    [onClick={() => handleDeleteTodo(todo.id)}]. *)
Definition onClickToggle (s : State) (todo : Todo.t) : Prog unit :=
  handleToggleTodo s (Todo.id todo) (Todo.completed todo).

Definition onClickDelete (s : State) (todo : Todo.t) : Prog unit :=
  handleDeleteTodo s (Todo.id todo).

(** * Vocabulary of the specification *)

(** The request as it leaves the client, after the interceptors. *)
Definition outgoing (env : gmap string string) (m : ApiModule) (call : Call)
  : RequestConfig :=
  (runRequestInterceptors (interceptors m) env (msalInstance m)
     (InternalAxiosRequestConfig.mk (API_BASE_URL env)
        (call_method call) (call_url call)
        {["Content-Type" := "application/json"]} (call_data call))).1.

(** Running [p] in [w] made exactly one exchange with the backend, and it
    was fulfilled with [response]. *)
Definition answeredWith {A} (srv : Backend) (p : Prog A) (w : World)
    (T : RespTy) (response : AxiosResponse.t T) : Prop :=
  ∃ config,
    network (exec srv p w)
    = network w ++ [{| sent := config; answer := Answered T response |}].

(** Running [p] in [w] made exactly one exchange with the backend, and it
    was rejected with [err]. *)
Definition rejectedWith {A} (srv : Backend) (p : Prog A) (w : World)
    (err : AxiosError.t) : Prop :=
  ∃ config,
    network (exec srv p w)
    = network w ++ [{| sent := config; answer := Failed err |}].

(** A string that is empty or consists of white space only. *)
Fixpoint isBlank (s : string) : bool :=
  match s with
  | EmptyString => true
  | String c rest => isWhiteSpace c && isBlank rest
  end.

(** The five operations of the controller. *)
Inductive Operation :=
| Load
| Add
| Update (id : string) (currentStatus : bool)
| Delete (id : string)
| Generate.

Definition handlerOf (op : Operation) (s : State) : Prog unit :=
  match op with
  | Load => fetchTodos
  | Add => handleAddTask s
  | Update id currentStatus => handleToggleTodo s id currentStatus
  | Delete id => handleDeleteTodo s id
  | Generate => handleGenerateSchedule s
  end.

(** The generic message of each operation, as the specification lists them. *)
Definition failureMessage (op : Operation) : string :=
  match op with
  | Load => "Failed to load tasks. Please try again."
  | Add => "Failed to add task. Please try again."
  | Update _ _ => "Failed to update task. Please try again."
  | Delete _ => "Failed to delete task. Please try again."
  | Generate => "Failed to generate schedule. Please try again."
  end.

(** The task [t] carries every field that [updateData] sets. *)
Definition reflects (updateData : UpdateTodoRequest.t) (t : Todo.t) : Prop :=
  (∀ x, UpdateTodoRequest.task updateData = Some x → Todo.task t = x)
  ∧ (∀ p, UpdateTodoRequest.priority updateData = Some p → Todo.priority t = p)
  ∧ (∀ b, UpdateTodoRequest.completed updateData = Some b → Todo.completed t = b).

(** The operations of the API client, invoked for their effect. *)
Inductive ApiOperation :=
| listTasks
| createTask (todoData : CreateTodoRequest.t)
| updateTask (id : string) (updateData : UpdateTodoRequest.t)
| deleteTask (id : string)
| generateScheduleFor (todos : list Todo.t) (habits : Habits.t).

Definition invoke (op : ApiOperation) : Prog unit :=
  match op with
  | listTasks => bind getTodos (λ _, Ret ())
  | createTask todoData => bind (createTodo todoData) (λ _, Ret ())
  | updateTask id updateData => bind (updateTodo id updateData) (λ _, Ret ())
  | deleteTask id => bind (deleteTodo id) (λ _, Ret ())
  | generateScheduleFor todos habits =>
      bind (generateSchedule todos habits) (λ _, Ret ())
  end.

(** Silent acquisition for the first signed-in account yields [token]. *)
Definition tokenAcquired (w : World) (token : string) : Prop :=
  ∃ instance account0 others response,
    msalInstance (api w) = Some instance
    ∧ PublicClientApplication.getAllAccounts instance = account0 :: others
    ∧ PublicClientApplication.acquireTokenSilent instance
        (SilentRequest.mk (ApiRequest.scopes (apiRequest (process_env w))) account0)
      = inr response
    ∧ AuthenticationResult.accessToken response = token.

(** No MSAL instance, no signed-in account, or silent acquisition throws. *)
Definition acquisitionFails (w : World) : Prop :=
  msalInstance (api w) = None
  ∨ (∃ instance,
       msalInstance (api w) = Some instance
       ∧ PublicClientApplication.getAllAccounts instance = [])
  ∨ (∃ instance account0 others error,
       msalInstance (api w) = Some instance
       ∧ PublicClientApplication.getAllAccounts instance = account0 :: others
       ∧ PublicClientApplication.acquireTokenSilent instance
           (SilentRequest.mk (ApiRequest.scopes (apiRequest (process_env w))) account0)
         = inl error).

(** The module variable is only ever assigned by [initializeApi], which
    registers the interceptors in the same call. *)
Definition moduleInvariant (m : ApiModule) : Prop :=
  is_Some (msalInstance m) → 0 < interceptors m.

(** ** Sample data *)

Module Sample.

Definition report : Todo.t := Todo.mk "t1" "Write report" High false None None.
Definition errand : Todo.t := Todo.mk "t2" "Buy stamps" Low true None None.

Definition alice : AccountInfo.t :=
  AccountInfo.mk "home-1" "alice@example.org" (Some "Alice").

(** A signed-in session whose silent acquisition succeeds. *)
Definition signedIn : PublicClientApplication.t :=
  PublicClientApplication.mk [alice] (λ _, inr (AuthenticationResult.mk "tok-1")).

(** A signed-in session whose silent acquisition needs interaction. *)
Definition expired : PublicClientApplication.t :=
  PublicClientApplication.mk [alice] (λ _, inl (Error "interaction_required")).

Definition stateWith (list : list Todo.t) (input : string) : State :=
  mkState list [] false None false input High (habits initialState).

Definition worldWith (instance : PublicClientApplication.t) (s : State) : World :=
  mkWorld ∅ (initializeApi instance apiModule0) s [] [].

(** A space, a tab, a no-break space and a line feed. *)
Definition blankInput : string :=
  String " "%char (String "009"%char (String "160"%char (String "010"%char ""))).

Definition slot : ScheduleItem.t := ScheduleItem.mk "09:00" "Write report" "45m" None.

(** A backend that is unreachable. *)
Definition offline : Backend :=
  λ T _ _, inl (AxiosError.mk "Network Error" None).

(** A backend that answers with [t] wherever a task is expected, with the
    list [[t]] to a listing, with an empty body to a schedule request. *)
Definition answering (t : Todo.t) : Backend :=
  λ T _ _,
    match T with
    | TTodos => inr (AxiosResponse.mk TTodos (inr [t]) 200)
    | TTodo => inr (AxiosResponse.mk TTodo t 200)
    | TSchedule => inr (AxiosResponse.mk TSchedule (inl js_empty_string) 204)
    | TAny => inr (AxiosResponse.mk TAny () 204)
    end.

Definition applyPartial (updateData : UpdateTodoRequest.t) (t : Todo.t) : Todo.t :=
  Todo.mk (Todo.id t)
    (default (Todo.task t) (UpdateTodoRequest.task updateData))
    (default (Todo.priority t) (UpdateTodoRequest.priority updateData))
    (default (Todo.completed t) (UpdateTodoRequest.completed updateData))
    (Todo.createdAt t) (Todo.updatedAt t).

(** A backend that holds the one task [t] and applies the partial of every
    update to it; it plans [slot] for any schedule request. *)
Definition keeping (t : Todo.t) : Backend :=
  λ T _ config,
    match T with
    | TTodos => inr (AxiosResponse.mk TTodos (inr [t]) 200)
    | TTodo =>
        match InternalAxiosRequestConfig.data config with
        | UpdatePayload updateData =>
            inr (AxiosResponse.mk TTodo (applyPartial updateData t) 200)
        | _ => inr (AxiosResponse.mk TTodo t 201)
        end
    | TSchedule => inr (AxiosResponse.mk TSchedule (inr [slot]) 200)
    | TAny => inr (AxiosResponse.mk TAny () 204)
    end.

End Sample.

(** * The rest of the component *)

(** ** Habits form *)

(** [keyof Habits] *)
Module HabitsKey.
Inductive t :=
| workStartTime
| workEndTime
| breakDuration
| breakFrequency
| focusArea.

#[global] Instance eq_dec : EqDecision t.
Proof. solve_decision. Defined.
End HabitsKey.

(** The type [Habits] declares for each field.  [handleHabitChange] takes
    [value: string | number]; the five callers in the view pass a string to
    the string fields and a number to the number fields, and only such calls
    are modelled. *)
Definition HabitsValue (field : HabitsKey.t) : Type :=
  match field with
  | HabitsKey.breakDuration | HabitsKey.breakFrequency => number
  | _ => string
  end.

(** [habits[field]] *)
Definition habitsGet (field : HabitsKey.t) (h : Habits.t) : HabitsValue field :=
  match field with
  | HabitsKey.workStartTime => Habits.workStartTime h
  | HabitsKey.workEndTime => Habits.workEndTime h
  | HabitsKey.breakDuration => Habits.breakDuration h
  | HabitsKey.breakFrequency => Habits.breakFrequency h
  | HabitsKey.focusArea => Habits.focusArea h
  end.

(** The updater [(prev) => ({ ...prev, [field]: value })]. *)
Definition habitsSpread (field : HabitsKey.t) (value : HabitsValue field)
    (prev : Habits.t) : Habits.t :=
  match field return HabitsValue field → Habits.t with
  | HabitsKey.workStartTime => λ v,
      Habits.mk v (Habits.workEndTime prev) (Habits.breakDuration prev)
        (Habits.breakFrequency prev) (Habits.focusArea prev)
  | HabitsKey.workEndTime => λ v,
      Habits.mk (Habits.workStartTime prev) v (Habits.breakDuration prev)
        (Habits.breakFrequency prev) (Habits.focusArea prev)
  | HabitsKey.breakDuration => λ v,
      Habits.mk (Habits.workStartTime prev) (Habits.workEndTime prev) v
        (Habits.breakFrequency prev) (Habits.focusArea prev)
  | HabitsKey.breakFrequency => λ v,
      Habits.mk (Habits.workStartTime prev) (Habits.workEndTime prev)
        (Habits.breakDuration prev) v (Habits.focusArea prev)
  | HabitsKey.focusArea => λ v,
      Habits.mk (Habits.workStartTime prev) (Habits.workEndTime prev)
        (Habits.breakDuration prev) (Habits.breakFrequency prev) v
  end value.

(** [setHabits(updater)]: the functional form of the setter, which React
    applies to the state of the moment, not to a render's snapshot. *)
Definition setHabits (updater : Habits.t → Habits.t) (s : State) : State :=
  mkState (todos s) (schedule s) (loading s) (error s) (showSchedule s)
    (taskInput s) (priorityInput s) (updater (habits s)).

(** [handleHabitChange] is synchronous and only queues the updater: it is
    a function on the component state. *)
Definition handleHabitChange (field : HabitsKey.t) (value : HabitsValue field)
  : State → State :=
  setHabits (habitsSpread field value).

(** A synchronous state change, in a world. *)
Definition sync (f : State → State) (w : World) : World :=
  mkWorld (process_env w) (api w) (f (ui w)) (network w) (console w).

(** ** What the component renders *)

(** The three branches of the task list:
    [loading && todos.length === 0 ? ... : todos.length === 0 ? ... : rows]. *)
Inductive TaskListView :=
| LoadingTasks
| NoTasksYet
| TaskRows (rows : list Todo.t).

(** The parts of the rendered tree that depend on the state, without their
    styling. *)
Record View := mkView {
  (** [{error && (<div>{error}</div>)}] *)
  errorAlert : option string;
  (** ["Your Tasks ({todos.length})"] *)
  taskCount : nat;
  taskList : TaskListView;
  (** [disabled={loading}] on the task input, the priority select and the
      Add, toggle, delete and Generate buttons *)
  controlsDisabled : bool;
  (** [{todos.length > 0 && (<button onClick={handleGenerateSchedule}>)}] *)
  generateButton : bool;
  (** [{showSchedule && schedule.length > 0 && (...schedule.map...)}] *)
  schedulePanel : option (list ScheduleItem.t);
  (** [{loading && (<div>Processing...</div>)}] *)
  loadingOverlay : bool;
}.

Definition render (s : State) : View := {|
  errorAlert :=
    match error s with
    | Some message => if truthy message then Some message else None
    | None => None
    end;
  taskCount := length (todos s);
  taskList :=
    if loading s && (length (todos s) =? 0)%nat then LoadingTasks
    else if (length (todos s) =? 0)%nat then NoTasksYet
    else TaskRows (todos s);
  controlsDisabled := loading s;
  generateButton := (0 <? length (todos s))%nat;
  schedulePanel :=
    if showSchedule s && (0 <? length (schedule s))%nat then Some (schedule s)
    else None;
  loadingOverlay := loading s;
|}.

(** The "Hide Schedule" button: [onClick={() => setShowSchedule(false)}]. *)
Definition hideSchedule : Prog unit := setShowSchedule false.

(** The task input and the priority select:
    [onChange={(e) => setTaskInput(e.target.value)}] and
    [onChange={(e) => setPriorityInput(e.target.value)}]. *)
Definition onChangeTaskInput (value : string) : Prog unit := setTaskInput value.
Definition onChangePriority (value : Priority) : Prog unit := setPriorityInput value.

(** ** Vocabulary of the further properties *)

(** The operations [ops] one after the other, each handler created in the
    render that follows the one before. *)
Definition runAll (srv : Backend) (ops : list Operation) (w : World) : World :=
  foldl (λ w op, exec srv (handlerOf op (ui w)) w) w ops.

(** Every message the controller ever passes to [setError]. *)
Definition knownMessages : list string :=
  [ "Failed to load tasks. Please try again.";
    "Failed to add task. Please try again.";
    "Failed to update task. Please try again.";
    "Failed to delete task. Please try again.";
    "Failed to generate schedule. Please try again.";
    "Please add some tasks before generating a schedule." ].

(** The error cell holds nothing, or one of the fixed messages. *)
Definition errorIsKnown (s : State) : Prop :=
  ∀ message, error s = Some message → message ∈ knownMessages.

(** What the request interceptors log for one request. *)
Definition interceptorLogs (env : gmap string string) (m : ApiModule) (call : Call)
  : list LogEntry :=
  (runRequestInterceptors (interceptors m) env (msalInstance m)
     (InternalAxiosRequestConfig.mk (API_BASE_URL env)
        (call_method call) (call_url call)
        {["Content-Type" := "application/json"]} (call_data call))).2.

(** The request each API operation makes. *)
Definition callOf (op : ApiOperation) : Call :=
  match op with
  | listTasks =>
      {| call_method := GET; call_url := "/todos"; call_data := NoPayload |}
  | createTask todoData =>
      {| call_method := POST; call_url := "/todos";
         call_data :=
           CreatePayload (CreateTodoRequest.task todoData)
             (CreateTodoRequest.priority todoData)
             (default false (CreateTodoRequest.completed todoData)) |}
  | updateTask id updateData =>
      {| call_method := PUT; call_url := "/todos/" +:+ id;
         call_data := UpdatePayload updateData |}
  | deleteTask id =>
      {| call_method := DELETE; call_url := "/todos/" +:+ id;
         call_data := NoPayload |}
  | generateScheduleFor todos habits =>
      {| call_method := POST; call_url := "/schedule";
         call_data := SchedulePayload todos habits |}
  end.

(** The label each API operation gives its [console.error]. *)
Definition logLabel (op : ApiOperation) : string :=
  match op with
  | listTasks => "Error fetching todos:"
  | createTask _ => "Error creating todo:"
  | updateTask _ _ => "Error updating todo:"
  | deleteTask _ => "Error deleting todo:"
  | generateScheduleFor _ _ => "Error generating schedule:"
  end.

(** The API operation behind each operation of the controller created in
    state [s], if the handler gets as far as calling it. *)
Definition apiCallOf (op : Operation) (s : State) : option ApiOperation :=
  match op with
  | Load => Some listTasks
  | Add =>
      if isBlank (taskInput s) then None
      else Some (createTask
                   (CreateTodoRequest.mk (taskInput s) (priorityInput s) (Some false)))
  | Update id currentStatus =>
      Some (updateTask id (UpdateTodoRequest.mk None None (Some (negb currentStatus))))
  | Delete id => Some (deleteTask id)
  | Generate =>
      match todos s with
      | [] => None
      | _ => Some (generateScheduleFor (todos s) (habits s))
      end
  end.

(** The response type each API operation asks [apiClient] for. *)
Definition respOf (op : ApiOperation) : RespTy :=
  match op with
  | listTasks => TTodos
  | createTask _ => TTodo
  | updateTask _ _ => TTodo
  | deleteTask _ => TAny
  | generateScheduleFor _ _ => TSchedule
  end.

(** index.tsx: the world in which the component mounts, with the MSAL
    instance created from the configuration and passed to [initializeApi]. *)
Definition startup (env : gmap string string) (instance : PublicClientApplication.t)
  : World :=
  mkWorld env (initializeApi instance apiModule0) initialState [] [].

(** The partial a click on the toggle of [t] sends, and the request that
    carries it as it leaves the client in [w]. *)
Definition togglePartial (t : Todo.t) : UpdateTodoRequest.t :=
  UpdateTodoRequest.mk None None (Some (negb (Todo.completed t))).

Definition toggleRequest (w : World) (t : Todo.t) : RequestConfig :=
  outgoing (process_env w) (api w) (callOf (updateTask (Todo.id t) (togglePartial t))).

(** A click on the Generate button as the browser delivers it: the button
    exists only under [todos.length > 0 && ...], and with [disabled={loading}]
    (and under the loading overlay) a click reaches no handler. *)
Definition clickGenerate (s : State) : Prog unit :=
  if generateButton (render s) && negb (controlsDisabled (render s))
  then handleGenerateSchedule s
  else Ret ().

(** * Properties *)

(** ** Running programs *)

Lemma run_bind {A B} srv (m : Prog A) (f : A → Prog B) w :
  run srv (bind m f) w = run srv (f (run srv m w).1) (run srv m w).2.
Proof.
  revert w. induction m as [a|u k IH|entry k IH|T call k IH]; intros w; simpl.
  - reflexivity.
  - apply IH.
  - apply IH.
  - destruct (apiClient_request srv T call w) as [r w']. apply IH.
Qed.

Lemma apiClient_request_resolved srv T call w response :
  srv T (network w) (outgoing (process_env w) (api w) call) = inr response →
  ∃ logs,
    apiClient_request srv T call w =
      (inr response,
       mkWorld (process_env w) (api w) (ui w)
         (network w
            ++ [{| sent := outgoing (process_env w) (api w) call;
                   answer := Answered T response |}])
         (console w ++ logs)).
Proof.
  unfold apiClient_request, outgoing.
  destruct (runRequestInterceptors _ _ _ _) as [config logs]; simpl.
  intros ->. by exists logs.
Qed.

Lemma apiClient_request_rejected srv T call w error :
  srv T (network w) (outgoing (process_env w) (api w) call) = inl error →
  ∃ logs,
    apiClient_request srv T call w =
      (inl (Rejected error),
       mkWorld (process_env w) (api w) (ui w)
         (network w
            ++ [{| sent := outgoing (process_env w) (api w) call;
                   answer := Failed error |}])
         (console w ++ logs)).
Proof.
  unfold apiClient_request, outgoing.
  destruct (runRequestInterceptors _ _ _ _) as [config logs]; simpl.
  intros ->. by eexists.
Qed.

(** Unfold a handler down to its first request. *)
Ltac unfold_handler :=
  unfold exec, invoke, handlerOf, onClickToggle, onClickDelete, fetchTodos,
    handleAddTask, handleToggleTodo, handleDeleteTodo, handleGenerateSchedule,
    getTodos, createTodo, updateTodo, deleteTodo, generateSchedule,
    try_catch, request; simpl.

(** Case analysis on the backend's answer to the pending request. *)
Ltac case_reply :=
  match goal with
  | |- context [apiClient_request ?srv ?T ?call ?w] =>
      let error := fresh "error" in
      let response := fresh "response" in
      let Hreply := fresh "Hreply" in
      let logs := fresh "logs" in
      let E := fresh "E" in
      destruct (srv T (network w) (outgoing (process_env w) (api w) call))
        as [error|response] eqn:Hreply;
      [ destruct (apiClient_request_rejected srv T call w _ Hreply) as [logs E]
      | destruct (apiClient_request_resolved srv T call w _ Hreply) as [logs E] ];
      rewrite E; clear E; simpl in *
  end.

(** Run a handler whose exchange with the backend is described by [H]
    ([answeredWith] or [rejectedWith]); the branch of the other outcome is
    closed, the response received is identified with the one [H] names. *)
Ltac observe H :=
  let config := fresh "config" in
  destruct H as [config H]; revert H;
  unfold_handler; case_reply;
  intros H%app_inv_head; simplify_eq; simpl.

(** The interceptors touch nothing but the headers. *)
Lemma runRequestInterceptors_frame n env msal config :
  let config' := (runRequestInterceptors n env msal config).1 in
  InternalAxiosRequestConfig.baseURL config' = InternalAxiosRequestConfig.baseURL config
  ∧ InternalAxiosRequestConfig.method config' = InternalAxiosRequestConfig.method config
  ∧ InternalAxiosRequestConfig.url config' = InternalAxiosRequestConfig.url config
  ∧ InternalAxiosRequestConfig.data config' = InternalAxiosRequestConfig.data config.
Proof.
  revert config. induction n as [|n IH]; intros config; simpl; [done|].
  destruct (requestInterceptor env msal config) as [config1 logs1] eqn:H1.
  specialize (IH config1).
  destruct (runRequestInterceptors n env msal config1) as [config2 logs2].
  simpl in *. destruct IH as (-> & -> & -> & ->).
  unfold requestInterceptor in H1.
  repeat case_match; by simplify_eq.
Qed.

Lemma outgoing_frame env m call :
  InternalAxiosRequestConfig.baseURL (outgoing env m call) = API_BASE_URL env
  ∧ InternalAxiosRequestConfig.method (outgoing env m call) = call_method call
  ∧ InternalAxiosRequestConfig.url (outgoing env m call) = call_url call
  ∧ InternalAxiosRequestConfig.data (outgoing env m call) = call_data call.
Proof. apply runRequestInterceptors_frame. Qed.

(** ** The module invariant *)

Lemma moduleInvariant_apiModule0 : moduleInvariant apiModule0.
Proof. intros [instance H]. discriminate H. Qed.

Lemma moduleInvariant_initializeApi instance m : moduleInvariant (initializeApi instance m).
Proof. intros _. simpl. lia. Qed.

(** ** Token attachment *)

Lemma requestInterceptor_acquired w token config :
  tokenAcquired w token →
  (requestInterceptor (process_env w) (msalInstance (api w)) config).1
  = set_header "Authorization" ("Bearer " +:+ token) config.
Proof.
  intros (instance & account0 & others & response & Hm & Ha & Hr & <-).
  unfold requestInterceptor. by rewrite Hm, Ha, Hr.
Qed.

Lemma requestInterceptor_failed w config :
  acquisitionFails w →
  (requestInterceptor (process_env w) (msalInstance (api w)) config).1 = config.
Proof.
  unfold requestInterceptor.
  intros [Hm|[(instance & Hm & Ha)|(instance & account0 & others & error & Hm & Ha & Hr)]].
  - by rewrite Hm.
  - by rewrite Hm, Ha.
  - by rewrite Hm, Ha, Hr.
Qed.

Lemma set_header_twice key value config :
  set_header key value (set_header key value config) = set_header key value config.
Proof. unfold set_header; simpl. by rewrite insert_insert_eq. Qed.

Lemma runRequestInterceptors_acquired w token n config :
  tokenAcquired w token →
  (runRequestInterceptors (S n) (process_env w) (msalInstance (api w)) config).1
  = set_header "Authorization" ("Bearer " +:+ token) config.
Proof.
  intros Hacq. revert config. induction n as [|n IH]; intros config.
  - simpl. rewrite <- (requestInterceptor_acquired w token config Hacq).
    by destruct (requestInterceptor _ _ config).
  - change (runRequestInterceptors (S (S n)) ?env ?msal config)
      with (let '(config1, logs1) := requestInterceptor env msal config in
            let '(config2, logs2) := runRequestInterceptors (S n) env msal config1 in
            (config2, logs1 ++ logs2)).
    pose proof (requestInterceptor_acquired w token config Hacq) as H1.
    destruct (requestInterceptor _ _ config) as [config1 logs1]. simpl in H1.
    specialize (IH config1).
    destruct (runRequestInterceptors (S n) _ _ config1) as [config2 logs2].
    simpl in *. subst. apply set_header_twice.
Qed.

Lemma runRequestInterceptors_failed w n config :
  acquisitionFails w →
  (runRequestInterceptors n (process_env w) (msalInstance (api w)) config).1 = config.
Proof.
  intros Hfail. revert config. induction n as [|n IH]; intros config; [done|].
  simpl.
  pose proof (requestInterceptor_failed w config Hfail) as H1.
  destruct (requestInterceptor _ _ config) as [config1 logs1]. simpl in H1.
  specialize (IH config1).
  destruct (runRequestInterceptors n _ _ config1) as [config2 logs2].
  simpl in *. by subst.
Qed.

Lemma outgoing_headers w call :
  moduleInvariant (api w) →
  (∀ token, tokenAcquired w token →
     InternalAxiosRequestConfig.headers (outgoing (process_env w) (api w) call)
       !! "Authorization" = Some ("Bearer " +:+ token))
  ∧ (acquisitionFails w →
     InternalAxiosRequestConfig.headers (outgoing (process_env w) (api w) call)
       !! "Authorization" = None).
Proof.
  intros Hinit. unfold outgoing. split.
  - intros token Hacq.
    destruct (interceptors (api w)) as [|n] eqn:Hn.
    + destruct Hacq as (instance & _ & _ & _ & Hm & _).
      assert (0 < interceptors (api w)) by (apply Hinit; by rewrite Hm).
      lia.
    + rewrite (runRequestInterceptors_acquired w token n _ Hacq).
      simpl. apply lookup_insert_eq.
  - intros Hfail. rewrite (runRequestInterceptors_failed w _ _ Hfail).
    simpl. by apply lookup_singleton_ne.
Qed.

(** C1. Each of the five operations of the API client sends exactly one
    request, whether the backend then rejects it or not.  If silent token
    acquisition for the first account succeeds, that request carries
    [Authorization: Bearer <token>]; if there is no MSAL instance, no
    signed-in account, or acquisition throws, the request is sent all the
    same and carries no [Authorization] header. *)
Theorem C1_bearer_token_attached_or_request_proceeds (srv : Backend)
    (w : World) (op : ApiOperation) :
  moduleInvariant (api w) →
  ∃ ex,
    network (exec srv (invoke op) w) = network w ++ [ex]
    ∧ (∀ token, tokenAcquired w token →
         InternalAxiosRequestConfig.headers (sent ex) !! "Authorization"
         = Some ("Bearer " +:+ token))
    ∧ (acquisitionFails w →
         InternalAxiosRequestConfig.headers (sent ex) !! "Authorization" = None).
Proof.
  intros Hinit.
  destruct op; unfold_handler; case_reply;
    (eexists; split; [done|]); by apply outgoing_headers.
Qed.

Lemma C1_bearer_token_attached_or_request_proceeds_witness :
  let signedIn := Sample.worldWith Sample.signedIn initialState in
  let expired := Sample.worldWith Sample.expired initialState in
  moduleInvariant (api signedIn)
  ∧ moduleInvariant (api expired)
  ∧ (∃ ex,
       network (exec Sample.offline (invoke listTasks) signedIn) = [ex]
       ∧ InternalAxiosRequestConfig.headers (sent ex) !! "Authorization"
         = Some "Bearer tok-1")
  ∧ (∃ ex,
       network (exec Sample.offline (invoke (deleteTask "t1")) expired) = [ex]
       ∧ InternalAxiosRequestConfig.headers (sent ex) !! "Authorization" = None).
Proof.
  intros signedIn expired.
  assert (moduleInvariant (api signedIn)) as H1 by (intros _; simpl; lia).
  assert (moduleInvariant (api expired)) as H2 by (intros _; simpl; lia).
  split; [exact H1|]. split; [exact H2|]. split.
  - destruct (C1_bearer_token_attached_or_request_proceeds
                Sample.offline signedIn listTasks H1) as (ex & Hnet & Hacq & _).
    exists ex. split; [exact Hnet|]. apply Hacq.
    exists Sample.signedIn, Sample.alice, [], (AuthenticationResult.mk "tok-1").
    repeat split.
  - destruct (C1_bearer_token_attached_or_request_proceeds
                Sample.offline expired (deleteTask "t1") H2) as (ex & Hnet & _ & Hfail).
    exists ex. split; [exact Hnet|]. apply Hfail.
    right; right.
    exists Sample.expired, Sample.alice, [], (Error "interaction_required").
    repeat split.
Defined.

(** ** The API operations *)

(** C9. [getTodos] (listTasks) and [generateSchedule] resolve to the empty
    list whenever the body of the backend's response is absent or empty (any
    falsy value), and to exactly the array the backend sent otherwise. *)
Theorem C9_empty_list_on_no_content (srv : Backend) (w : World) :
  (∀ listed,
     answeredWith srv getTodos w TTodos listed →
     (∀ falsy, AxiosResponse.data listed = inl falsy →
               (run srv getTodos w).1 = inr [])
     ∧ (∀ array, AxiosResponse.data listed = inr array →
                 (run srv getTodos w).1 = inr array))
  ∧ (∀ todos0 habits0 planned,
       answeredWith srv (generateSchedule todos0 habits0) w TSchedule planned →
       (∀ falsy, AxiosResponse.data planned = inl falsy →
                 (run srv (generateSchedule todos0 habits0) w).1 = inr [])
       ∧ (∀ array, AxiosResponse.data planned = inr array →
                   (run srv (generateSchedule todos0 habits0) w).1 = inr array)).
Proof.
  split.
  - intros listed H. split; intros body Hbody; observe H; by rewrite Hbody.
  - intros todos0 habits0 planned H.
    split; intros body Hbody; observe H; by rewrite Hbody.
Qed.

Lemma C9_empty_list_on_no_content_witness :
  let w := Sample.worldWith Sample.signedIn initialState in
  let srv := Sample.answering Sample.report in
  let listed := AxiosResponse.mk TTodos (inr [Sample.report]) 200 in
  let planned := AxiosResponse.mk TSchedule (inl js_empty_string) 204 in
  answeredWith srv getTodos w TTodos listed
  ∧ answeredWith srv (generateSchedule [Sample.report] (habits initialState)) w
      TSchedule planned
  ∧ (run srv getTodos w).1 = inr [Sample.report]
  ∧ (run srv (generateSchedule [Sample.report] (habits initialState)) w).1 = inr [].
Proof.
  intros w srv listed planned.
  assert (answeredWith srv getTodos w TTodos listed) as H1
    by (eexists; reflexivity).
  assert (answeredWith srv (generateSchedule [Sample.report] (habits initialState)) w
            TSchedule planned) as H2
    by (eexists; reflexivity).
  split; [exact H1|]. split; [exact H2|].
  destruct (C9_empty_list_on_no_content srv w) as [Hlist Hplan].
  split.
  - apply (proj2 (Hlist listed H1)). reflexivity.
  - apply (proj1 (Hplan _ _ planned H2) js_empty_string). reflexivity.
Defined.

(** ** Blank input *)

Lemma trimStart_blank s : isBlank s = true → trimStart s = "".
Proof.
  induction s as [|c rest IH]; simpl; [done|].
  intros [Hc Hrest]%andb_prop. rewrite Hc. by apply IH.
Qed.

Lemma trimEnd_empty_blank s : trimEnd s = "" → isBlank s = true.
Proof.
  induction s as [|c rest IH]; simpl; [done|].
  destruct (trimEnd rest) as [|c' kept]; [|done].
  destruct (isWhiteSpace c); [|done].
  intros _. by rewrite IH.
Qed.

Lemma trimStart_blank_inv s : isBlank (trimStart s) = true → isBlank s = true.
Proof.
  induction s as [|c rest IH]; simpl; [done|].
  destruct (isWhiteSpace c) eqn:Hc; simpl.
  - apply IH.
  - by rewrite Hc.
Qed.

Lemma trim_empty_iff s : trim s = "" ↔ isBlank s = true.
Proof.
  unfold trim. split.
  - intros H. by apply trimStart_blank_inv, trimEnd_empty_blank.
  - intros H. by rewrite trimStart_blank.
Qed.

Lemma truthy_trim s : truthy (trim s) = negb (isBlank s).
Proof.
  destruct (isBlank s) eqn:Hs.
  - apply trim_empty_iff in Hs. by rewrite Hs.
  - destruct (trim s) eqn:Ht; [|done].
    apply trim_empty_iff in Ht. congruence.
Qed.

(** [trim] on a few inputs. *)
Example trim_padded :
  trim ("  Write report" +:+ String "009"%char " ") = "Write report".
Proof. reflexivity. Qed.

Example trim_inner_space_kept : trim " a b " = "a b".
Proof. reflexivity. Qed.

(** ** The controller *)

(** C2. With an empty task list, generating a schedule sends nothing to the
    backend, sets the validation message, and leaves the loading flag, the
    task list and the schedule (and whether it is shown) as they were. *)
Theorem C2_generate_refused_on_empty_list (srv : Backend) (w : World) :
  todos (ui w) = [] →
  let w' := exec srv (handleGenerateSchedule (ui w)) w in
  network w' = network w
  ∧ error (ui w') = Some "Please add some tasks before generating a schedule."
  ∧ loading (ui w') = loading (ui w)
  ∧ todos (ui w') = todos (ui w)
  ∧ schedule (ui w') = schedule (ui w)
  ∧ showSchedule (ui w') = showSchedule (ui w).
Proof.
  intros Hempty. unfold exec, handleGenerateSchedule.
  rewrite Hempty. simpl. by repeat split.
Qed.

Lemma C2_generate_refused_on_empty_list_witness :
  let w := Sample.worldWith Sample.signedIn initialState in
  let w' := exec (Sample.keeping Sample.report) (handleGenerateSchedule (ui w)) w in
  todos (ui w) = []
  ∧ network w' = []
  ∧ error (ui w') = Some "Please add some tasks before generating a schedule."
  ∧ loading (ui w') = false
  ∧ schedule (ui w') = [].
Proof.
  intros w w'. split; [reflexivity|].
  pose proof (C2_generate_refused_on_empty_list (Sample.keeping Sample.report) w
                eq_refl) as H.
  cbv zeta in H. destruct H as (Hnet & Herr & Hload & _ & Hsched & _).
  split; [exact Hnet|]. split; [exact Herr|]. split; [exact Hload|]. exact Hsched.
Defined.

(** C8. Submitting the add-task form with an empty or white-space-only
    input changes nothing at all: no request is sent, no error is set, and
    the task list, the loading flag and the form fields stay as they were. *)
Theorem C8_blank_task_is_noop (srv : Backend) (w : World) :
  isBlank (taskInput (ui w)) = true →
  exec srv (handleAddTask (ui w)) w = w.
Proof.
  intros Hblank. unfold exec, handleAddTask.
  rewrite truthy_trim, Hblank. reflexivity.
Qed.

Lemma C8_blank_task_is_noop_witness :
  let w := Sample.worldWith Sample.signedIn (Sample.stateWith [Sample.errand] Sample.blankInput) in
  isBlank (taskInput (ui w)) = true
  ∧ exec (Sample.answering Sample.report) (handleAddTask (ui w)) w = w.
Proof.
  intros w. split; [reflexivity|].
  apply (C8_blank_task_is_noop (Sample.answering Sample.report) w). reflexivity.
Defined.

Lemma app_singleton_neq {A} (l : list A) (x : A) : l ≠ l ++ [x].
Proof.
  intros H. apply (f_equal length) in H. rewrite length_app in H.
  simpl in H. lia.
Qed.

(** C3. Whenever the backend rejects the request of an operation, the
    operation has made that request and the controller ends idle (loading
    flag false) with exactly the generic message of that operation, and the
    task list and the schedule are as they were before the operation.  The
    operations are load, add (with an input that is not blank), update,
    delete and generate (with a list that is not empty). *)
Theorem C3_failure_sets_generic_message (srv : Backend) (op : Operation)
    (w : World) (apiOp : ApiOperation) (err : AxiosError.t) :
  apiCallOf op (ui w) = Some apiOp →
  srv (respOf apiOp) (network w)
    (outgoing (process_env w) (api w) (callOf apiOp)) = inl err →
  let w' := exec srv (handlerOf op (ui w)) w in
  network w'
  = network w
      ++ [{| sent := outgoing (process_env w) (api w) (callOf apiOp);
             answer := Failed err |}]
  ∧ loading (ui w') = false
  ∧ error (ui w') = Some (failureMessage op)
  ∧ todos (ui w') = todos (ui w)
  ∧ schedule (ui w') = schedule (ui w)
  ∧ showSchedule (ui w') = showSchedule (ui w).
Proof.
  destruct op as [| |id currentStatus|id|]; simpl.
  - intros [= <-] Hsrv. simpl in Hsrv.
    unfold_handler. case_reply; rewrite Hsrv in Hreply; by simplify_eq.
  - unfold exec, handleAddTask. rewrite truthy_trim.
    destruct (isBlank (taskInput (ui w))); simpl; [done|].
    intros [= <-] Hsrv. simpl in Hsrv.
    unfold_handler. case_reply; rewrite Hsrv in Hreply; by simplify_eq.
  - intros [= <-] Hsrv. simpl in Hsrv.
    unfold_handler. case_reply; rewrite Hsrv in Hreply; by simplify_eq.
  - intros [= <-] Hsrv. simpl in Hsrv.
    unfold_handler. case_reply; rewrite Hsrv in Hreply; by simplify_eq.
  - unfold exec, handleGenerateSchedule.
    destruct (todos (ui w)) as [|t l] eqn:Hlist; simpl; [done|].
    intros [= <-] Hsrv. simpl in Hsrv.
    unfold_handler. case_reply; rewrite Hsrv in Hreply; by simplify_eq.
Qed.

Lemma C3_failure_sets_generic_message_witness :
  let w := Sample.worldWith Sample.signedIn
             (Sample.stateWith [Sample.errand; Sample.report] "Write report") in
  let after op := ui (exec Sample.offline (handlerOf op (ui w)) w) in
  let sends op := length (network (exec Sample.offline (handlerOf op (ui w)) w)) in
  (sends Load = 1
   ∧ error (after Load) = Some "Failed to load tasks. Please try again."
   ∧ loading (after Load) = false
   ∧ todos (after Load) = [Sample.errand; Sample.report])
  ∧ (sends Add = 1
     ∧ error (after Add) = Some "Failed to add task. Please try again."
     ∧ loading (after Add) = false
     ∧ todos (after Add) = [Sample.errand; Sample.report])
  ∧ (sends (Update "t1" false) = 1
     ∧ error (after (Update "t1" false))
       = Some "Failed to update task. Please try again."
     ∧ loading (after (Update "t1" false)) = false
     ∧ todos (after (Update "t1" false)) = [Sample.errand; Sample.report])
  ∧ (sends (Delete "t1") = 1
     ∧ error (after (Delete "t1")) = Some "Failed to delete task. Please try again."
     ∧ loading (after (Delete "t1")) = false
     ∧ todos (after (Delete "t1")) = [Sample.errand; Sample.report])
  ∧ (sends Generate = 1
     ∧ error (after Generate) = Some "Failed to generate schedule. Please try again."
     ∧ loading (after Generate) = false
     ∧ todos (after Generate) = [Sample.errand; Sample.report]).
Proof.
  intros w after sends.
  assert (∀ op apiOp,
            apiCallOf op (ui w) = Some apiOp →
            sends op = 1
            ∧ error (after op) = Some (failureMessage op)
            ∧ loading (after op) = false
            ∧ todos (after op) = [Sample.errand; Sample.report]) as H.
  { intros op apiOp Hcall.
    pose proof (C3_failure_sets_generic_message Sample.offline op w apiOp
                  (AxiosError.mk "Network Error" None) Hcall eq_refl) as H.
    cbv zeta in H. destruct H as (Hnet & Hload & Herr & Htodos & _).
    split; [|split; [exact Herr|split; [exact Hload|exact Htodos]]].
    unfold sends. rewrite Hnet. reflexivity. }
  split; [exact (H Load _ eq_refl)|].
  split; [exact (H Add _ eq_refl)|].
  split; [exact (H (Update "t1" false) _ eq_refl)|].
  split; [exact (H (Delete "t1") _ eq_refl)|].
  exact (H Generate _ eq_refl).
Defined.

(** C4. [createTodo] posts a body whose [completed] is [false] when the
    caller left it unset (and the caller's value otherwise).  When the task
    input is not blank and the backend answers with the created task, the
    controller has posted the input with [completed = false] and appends the
    returned task: the list grows by exactly one, its new last entry carries
    the id the backend assigned, and the entries before it are unchanged. *)
Theorem C4_create_appends_returned_task (srv : Backend) (w : World)
    (newTodo : Todo.t) (status : Z) :
  isBlank (taskInput (ui w)) = false →
  answeredWith srv (handleAddTask (ui w)) w TTodo (AxiosResponse.mk TTodo newTodo status) →
  let w' := exec srv (handleAddTask (ui w)) w in
  (∀ task priority completed,
     ∃ ex,
       network (exec srv (createTodo (CreateTodoRequest.mk task priority completed)) w)
         = network w ++ [ex]
       ∧ InternalAxiosRequestConfig.method (sent ex) = POST
       ∧ InternalAxiosRequestConfig.url (sent ex) = "/todos"
       ∧ InternalAxiosRequestConfig.data (sent ex)
           = CreatePayload task priority (default false completed))
  ∧ (∃ ex,
       network w' = network w ++ [ex]
       ∧ InternalAxiosRequestConfig.method (sent ex) = POST
       ∧ InternalAxiosRequestConfig.url (sent ex) = "/todos"
       ∧ InternalAxiosRequestConfig.data (sent ex)
           = CreatePayload (taskInput (ui w)) (priorityInput (ui w)) false)
  ∧ todos (ui w') = todos (ui w) ++ [newTodo]
  ∧ length (todos (ui w')) = S (length (todos (ui w)))
  ∧ Todo.id <$> (todos (ui w') !! length (todos (ui w))) = Some (Todo.id newTodo)
  ∧ (∀ i t, todos (ui w) !! i = Some t → todos (ui w') !! i = Some t).
Proof.
  intros Hinput Hsrv. split.
  { intros task priority completed. clear Hsrv.
    unfold_handler. case_reply;
      (eexists; split; [done|]); simpl;
      match goal with
      | |- context [outgoing ?env ?m ?call] =>
          destruct (outgoing_frame env m call) as (_ & -> & -> & ->)
      end;
      repeat split; simpl; by destruct completed as [[]|]. }
  destruct Hsrv as [config Hsrv]. revert Hsrv.
  unfold exec, handleAddTask. rewrite truthy_trim, Hinput. simpl.
  unfold_handler. case_reply; intros Hsrv%app_inv_head; simplify_eq; simpl.
  split; [|split; [|split; [|split]]].
  - eexists. split; [done|]. simpl.
    match goal with
    | |- context [outgoing ?env ?m ?call] =>
        destruct (outgoing_frame env m call) as (_ & -> & -> & ->)
    end.
    done.
  - done.
  - rewrite length_app. simpl. lia.
  - by rewrite lookup_app_r, Nat.sub_diag by lia.
  - intros i t Hi. by apply lookup_app_l_Some.
Qed.

Lemma C4_create_appends_returned_task_witness :
  let w := Sample.worldWith Sample.signedIn
             (Sample.stateWith [Sample.errand] "Write report") in
  let srv := Sample.answering Sample.report in
  let w' := exec srv (handleAddTask (ui w)) w in
  isBlank (taskInput (ui w)) = false
  ∧ answeredWith srv (handleAddTask (ui w)) w TTodo
      (AxiosResponse.mk TTodo Sample.report 200)
  ∧ todos (ui w') = [Sample.errand; Sample.report]
  ∧ length (todos (ui w')) = 2.
Proof.
  intros w srv w'.
  assert (answeredWith srv (handleAddTask (ui w)) w TTodo
            (AxiosResponse.mk TTodo Sample.report 200)) as Hsrv
    by (eexists; reflexivity).
  split; [reflexivity|]. split; [exact Hsrv|].
  pose proof (C4_create_appends_returned_task srv w Sample.report 200
                eq_refl Hsrv) as H.
  cbv zeta in H. destruct H as (_ & _ & Htodos & Hlen & _).
  split; [exact Htodos | exact Hlen].
Defined.

Lemma filter_other_ids (id : string) (l : list Todo.t) :
  id ∉ (Todo.id <$> l) → filter (λ todo, Todo.id todo ≠ id) l = l.
Proof.
  induction l as [|t l IH]; [done|].
  rewrite fmap_cons, not_elem_of_cons. intros [Hne Hl].
  rewrite filter_cons_True by done. by rewrite IH.
Qed.

Lemma map_other_ids (id : string) (updatedTodo : Todo.t) (l : list Todo.t) :
  id ∉ (Todo.id <$> l) →
  (λ todo, if decide (Todo.id todo = id) then updatedTodo else todo) <$> l = l.
Proof.
  induction l as [|t l IH]; [done|].
  rewrite !fmap_cons, not_elem_of_cons. intros [Hne Hl].
  rewrite decide_False by done. by rewrite IH.
Qed.

(** C5. After a successful update of an id that occurs in the list, every
    entry with that id holds the task the backend returned, at the position
    it had; every other entry, the length and the order are unchanged. *)
Theorem C5_update_replaces_in_place (srv : Backend) (w : World) (id : string)
    (currentStatus : bool) (updatedTodo : Todo.t) (status : Z) :
  id ∈ (Todo.id <$> todos (ui w)) →
  answeredWith srv (handleToggleTodo (ui w) id currentStatus) w TTodo
    (AxiosResponse.mk TTodo updatedTodo status) →
  let w' := exec srv (handleToggleTodo (ui w) id currentStatus) w in
  length (todos (ui w')) = length (todos (ui w))
  ∧ (∀ i t, todos (ui w) !! i = Some t → Todo.id t = id →
            todos (ui w') !! i = Some updatedTodo)
  ∧ (∀ i t, todos (ui w) !! i = Some t → Todo.id t ≠ id →
            todos (ui w') !! i = Some t)
  ∧ (∃ i t, todos (ui w) !! i = Some t ∧ Todo.id t = id
            ∧ todos (ui w') !! i = Some updatedTodo).
Proof.
  intros Hin Hsrv. observe Hsrv.
  split; [|split; [|split]].
  - by rewrite length_fmap.
  - intros i t Hi Hid. rewrite list_lookup_fmap, Hi. simpl.
    by rewrite decide_True.
  - intros i t Hi Hid. rewrite list_lookup_fmap, Hi. simpl.
    by rewrite decide_False.
  - apply list_elem_of_fmap in Hin as (t & Hid & Ht).
    apply list_elem_of_lookup in Ht as [i Hi].
    exists i, t. split; [done|]. split; [done|].
    rewrite list_lookup_fmap, Hi. simpl. by rewrite decide_True.
Qed.

Lemma C5_update_replaces_in_place_witness :
  let w := Sample.worldWith Sample.signedIn
             (Sample.stateWith [Sample.errand; Sample.report] "") in
  let finished := Todo.mk "t1" "Write report" High true None None in
  let srv := Sample.answering finished in
  let w' := exec srv (handleToggleTodo (ui w) "t1" false) w in
  "t1" ∈ (Todo.id <$> todos (ui w))
  ∧ answeredWith srv (handleToggleTodo (ui w) "t1" false) w TTodo
      (AxiosResponse.mk TTodo finished 200)
  ∧ length (todos (ui w')) = 2
  ∧ todos (ui w') !! 0 = Some Sample.errand
  ∧ todos (ui w') !! 1 = Some finished.
Proof.
  intros w finished srv w'.
  assert ("t1" ∈ (Todo.id <$> todos (ui w))) as Hin
    by apply list_elem_of_further, list_elem_of_here.
  assert (answeredWith srv (handleToggleTodo (ui w) "t1" false) w TTodo
            (AxiosResponse.mk TTodo finished 200))
    as Hsrv by (eexists; reflexivity).
  split; [exact Hin|]. split; [exact Hsrv|].
  pose proof (C5_update_replaces_in_place srv w "t1" false finished 200 Hin Hsrv) as H.
  cbv zeta in H. destruct H as (Hlen & Hsame & Hother & _).
  split; [exact Hlen|]. split.
  - apply (Hother 0 Sample.errand); [reflexivity|discriminate].
  - apply (Hsame 1 Sample.report); reflexivity.
Defined.

(** C6. In a list with unique ids, a successful delete of an id that occurs
    in it removes that one entry and nothing else: the list splits around the
    removed entry, and what is left is the part before it followed by the
    part after it, in their original order. *)
Theorem C6_delete_removes_exactly_one (srv : Backend) (w : World) (id : string)
    (response : AxiosResponse.t TAny) :
  NoDup (Todo.id <$> todos (ui w)) →
  id ∈ (Todo.id <$> todos (ui w)) →
  answeredWith srv (handleDeleteTodo (ui w) id) w TAny response →
  let w' := exec srv (handleDeleteTodo (ui w) id) w in
  ∃ before removed after,
    todos (ui w) = before ++ removed :: after
    ∧ Todo.id removed = id
    ∧ todos (ui w') = before ++ after.
Proof.
  intros Hnodup Hin Hsrv. observe Hsrv.
  apply list_elem_of_fmap in Hin as (removed & Hid & Hremoved).
  apply list_elem_of_split in Hremoved as (before & after & Hsplit).
  exists before, removed, after. split; [done|]. split; [done|].
  rewrite Hsplit in Hnodup |- *.
  rewrite fmap_app, fmap_cons in Hnodup.
  apply NoDup_app in Hnodup as (_ & Hbefore & Hafter).
  apply NoDup_cons in Hafter as [Hafter _].
  rewrite filter_app, filter_cons_False by (intros H; by apply H).
  rewrite !filter_other_ids; [done| |].
  - by rewrite Hid.
  - intros Hb. apply (Hbefore _ Hb). rewrite Hid. apply list_elem_of_here.
Qed.

Lemma C6_delete_removes_exactly_one_witness :
  let w := Sample.worldWith Sample.signedIn
             (Sample.stateWith [Sample.errand; Sample.report] "") in
  let srv := Sample.answering Sample.report in
  let w' := exec srv (handleDeleteTodo (ui w) "t2") w in
  NoDup (Todo.id <$> todos (ui w))
  ∧ "t2" ∈ (Todo.id <$> todos (ui w))
  ∧ answeredWith srv (handleDeleteTodo (ui w) "t2") w TAny
      (AxiosResponse.mk TAny () 204)
  ∧ ∃ before removed after,
      [Sample.errand; Sample.report] = before ++ removed :: after
      ∧ Todo.id removed = "t2"
      ∧ todos (ui w') = before ++ after.
Proof.
  intros w srv w'.
  assert (NoDup (Todo.id <$> todos (ui w))) as Hnodup
    by (apply (bool_decide_unpack _); vm_compute; exact I).
  assert ("t2" ∈ (Todo.id <$> todos (ui w))) as Hin by apply list_elem_of_here.
  assert (answeredWith srv (handleDeleteTodo (ui w) "t2") w TAny
            (AxiosResponse.mk TAny () 204))
    as Hsrv by (eexists; reflexivity).
  split; [exact Hnodup|]. split; [exact Hin|]. split; [exact Hsrv|].
  exact (C6_delete_removes_exactly_one srv w "t2" _ Hnodup Hin Hsrv).
Defined.

(** C10. For an id that does not occur in the list, a successful update and
    a successful delete both leave the task list exactly as it was: the
    returned task is dropped and nothing is removed. *)
Theorem C10_unknown_id_leaves_list_unchanged (srv : Backend) (w : World)
    (id : string) :
  id ∉ (Todo.id <$> todos (ui w)) →
  (∀ currentStatus response,
     answeredWith srv (handleToggleTodo (ui w) id currentStatus) w TTodo response →
     todos (ui (exec srv (handleToggleTodo (ui w) id currentStatus) w)) = todos (ui w))
  ∧ (∀ response,
       answeredWith srv (handleDeleteTodo (ui w) id) w TAny response →
       todos (ui (exec srv (handleDeleteTodo (ui w) id) w)) = todos (ui w)).
Proof.
  intros Hnotin. split.
  - intros currentStatus response Hsrv. observe Hsrv.
    by apply map_other_ids.
  - intros response Hsrv. observe Hsrv.
    by apply filter_other_ids.
Qed.

Lemma C10_unknown_id_leaves_list_unchanged_witness :
  let w := Sample.worldWith Sample.signedIn (Sample.stateWith [Sample.errand] "") in
  let srv := Sample.answering Sample.report in
  ("t1" ∉ (Todo.id <$> todos (ui w)))
  ∧ todos (ui (exec srv (handleToggleTodo (ui w) "t1" false) w)) = [Sample.errand]
  ∧ todos (ui (exec srv (handleDeleteTodo (ui w) "t1") w)) = [Sample.errand].
Proof.
  intros w srv.
  assert ("t1" ∉ (Todo.id <$> todos (ui w))) as Hnotin
    by (apply (bool_decide_unpack _); vm_compute; exact I).
  split; [exact Hnotin|].
  destruct (C10_unknown_id_leaves_list_unchanged srv w "t1" Hnotin)
    as [Hupdate Hdelete].
  split.
  - apply (Hupdate false (AxiosResponse.mk TTodo Sample.report 200)).
    eexists; reflexivity.
  - apply (Hdelete (AxiosResponse.mk TAny () 204)).
    eexists; reflexivity.
Defined.

(** ** Toggling *)

(** One round trip of the toggle of the entry at index [i]. *)
Lemma toggle_round_trip (srv : Backend) (w : World) (i : nat) (t : Todo.t)
    (r : AxiosResponse.t TTodo) :
  todos (ui w) !! i = Some t →
  srv TTodo (network w) (toggleRequest w t) = inr r →
  reflects (togglePartial t) (AxiosResponse.data r) →
  let w1 := exec srv (onClickToggle (ui w) t) w in
  process_env w1 = process_env w
  ∧ api w1 = api w
  ∧ network w1
    = network w ++ [{| sent := toggleRequest w t; answer := Answered TTodo r |}]
  ∧ todos (ui w1) !! i = Some (AxiosResponse.data r)
  ∧ Todo.completed (AxiosResponse.data r) = negb (Todo.completed t).
Proof.
  intros Hi Hsrv (_ & _ & Hcompleted). unfold toggleRequest, togglePartial in *.
  simpl in Hsrv. unfold_handler. case_reply; rewrite Hsrv in Hreply; simplify_eq.
  split; [done|]. split; [done|]. split; [done|]. split.
  - rewrite list_lookup_fmap, Hi. simpl. by rewrite decide_True.
  - by apply Hcompleted.
Qed.

Lemma toggleRequest_shape (w : World) (t : Todo.t) :
  InternalAxiosRequestConfig.method (toggleRequest w t) = PUT
  ∧ InternalAxiosRequestConfig.url (toggleRequest w t) = "/todos/" +:+ Todo.id t
  ∧ InternalAxiosRequestConfig.data (toggleRequest w t)
    = UpdatePayload (UpdateTodoRequest.mk None None (Some (negb (Todo.completed t)))).
Proof. apply outgoing_frame. Qed.

(** C7. Toggling an entry of the task list twice brings it back to the
    completed value it started with.  Each click sends one PUT to
    [/todos/<id>] whose body sets only [completed], to the negation of the
    value the entry shows; when the backend fulfils these two requests, each
    with a task to which the partial it was sent has been applied, the entry
    at that position shows the opposite value after the first round trip and
    the original one after the second. *)
Theorem C7_double_toggle_restores_completed (srv : Backend) (w : World)
    (i : nat) (t : Todo.t) (r1 r2 : AxiosResponse.t TTodo) :
  todos (ui w) !! i = Some t →
  srv TTodo (network w) (toggleRequest w t) = inr r1 →
  reflects (togglePartial t) (AxiosResponse.data r1) →
  srv TTodo
    (network w ++ [{| sent := toggleRequest w t; answer := Answered TTodo r1 |}])
    (toggleRequest w (AxiosResponse.data r1)) = inr r2 →
  reflects (togglePartial (AxiosResponse.data r1)) (AxiosResponse.data r2) →
  let t1 := AxiosResponse.data r1 in
  let t2 := AxiosResponse.data r2 in
  let w1 := exec srv (onClickToggle (ui w) t) w in
  let w2 := exec srv (onClickToggle (ui w1) t1) w1 in
  network w1
  = network w ++ [{| sent := toggleRequest w t; answer := Answered TTodo r1 |}]
  ∧ InternalAxiosRequestConfig.method (toggleRequest w t) = PUT
  ∧ InternalAxiosRequestConfig.url (toggleRequest w t) = "/todos/" +:+ Todo.id t
  ∧ InternalAxiosRequestConfig.data (toggleRequest w t)
    = UpdatePayload (UpdateTodoRequest.mk None None (Some (negb (Todo.completed t))))
  ∧ todos (ui w1) !! i = Some t1
  ∧ Todo.completed t1 = negb (Todo.completed t)
  ∧ network w2
    = network w
        ++ [{| sent := toggleRequest w t; answer := Answered TTodo r1 |};
            {| sent := toggleRequest w t1; answer := Answered TTodo r2 |}]
  ∧ InternalAxiosRequestConfig.method (toggleRequest w t1) = PUT
  ∧ InternalAxiosRequestConfig.url (toggleRequest w t1) = "/todos/" +:+ Todo.id t1
  ∧ InternalAxiosRequestConfig.data (toggleRequest w t1)
    = UpdatePayload (UpdateTodoRequest.mk None None (Some (Todo.completed t)))
  ∧ todos (ui w2) !! i = Some t2
  ∧ Todo.completed t2 = Todo.completed t.
Proof.
  intros Hi Hsrv1 Hr1 Hsrv2 Hr2. cbv zeta.
  destruct (toggle_round_trip srv w i t r1 Hi Hsrv1 Hr1)
    as (Henv & Hapi & Hnet1 & Hi1 & Hc1).
  assert (toggleRequest (exec srv (onClickToggle (ui w) t) w) (AxiosResponse.data r1)
          = toggleRequest w (AxiosResponse.data r1)) as Hsame.
  { unfold toggleRequest. by rewrite Henv, Hapi. }
  rewrite <- Hnet1, <- Hsame in Hsrv2.
  destruct (toggle_round_trip srv _ i _ r2 Hi1 Hsrv2 Hr2)
    as (_ & _ & Hnet2 & Hi2 & Hc2).
  rewrite Hsame, Hnet1, <- app_assoc in Hnet2. simpl in Hnet2.
  destruct (toggleRequest_shape w t) as (Hm1 & Hu1 & Hd1).
  destruct (toggleRequest_shape w (AxiosResponse.data r1)) as (Hm2 & Hu2 & Hd2).
  rewrite Hc1, negb_involutive in Hd2.
  repeat split; try done.
  by rewrite Hc2, Hc1, negb_involutive.
Qed.

Lemma C7_double_toggle_restores_completed_witness :
  let w := Sample.worldWith Sample.signedIn
             (Sample.stateWith [Sample.errand; Sample.report] "") in
  let srv := Sample.keeping Sample.report in
  let finished := Todo.mk "t1" "Write report" High true None None in
  let r1 := AxiosResponse.mk TTodo finished 200 in
  let r2 := AxiosResponse.mk TTodo Sample.report 200 in
  let w1 := exec srv (onClickToggle (ui w) Sample.report) w in
  let w2 := exec srv (onClickToggle (ui w1) finished) w1 in
  todos (ui w) !! 1 = Some Sample.report
  ∧ srv TTodo (network w) (toggleRequest w Sample.report) = inr r1
  ∧ reflects (togglePartial Sample.report) finished
  ∧ srv TTodo
      (network w
         ++ [{| sent := toggleRequest w Sample.report; answer := Answered TTodo r1 |}])
      (toggleRequest w finished) = inr r2
  ∧ reflects (togglePartial finished) Sample.report
  ∧ length (network w2) = 2
  ∧ todos (ui w1) !! 1 = Some finished
  ∧ todos (ui w2) !! 1 = Some Sample.report.
Proof.
  intros w srv finished r1 r2 w1 w2.
  assert (reflects (togglePartial Sample.report) finished) as Hr1.
  { repeat split; intros x Hx; vm_compute in Hx; by simplify_eq. }
  assert (reflects (togglePartial finished) Sample.report) as Hr2.
  { repeat split; intros x Hx; vm_compute in Hx; by simplify_eq. }
  split; [reflexivity|]. split; [reflexivity|]. split; [exact Hr1|].
  split; [reflexivity|]. split; [exact Hr2|].
  pose proof (C7_double_toggle_restores_completed srv w 1 Sample.report r1 r2
                eq_refl eq_refl Hr1 eq_refl Hr2) as H.
  cbv zeta in H.
  destruct H as (_ & _ & _ & _ & Hi1 & _ & Hnet2 & _ & _ & _ & Hi2 & _).
  split; [|split; [exact Hi1 | exact Hi2]].
  apply (f_equal length) in Hnet2. exact Hnet2.
Defined.

(** ** The scenarios of the specification *)

(** Creating "Write report" against a backend that assigns id [t1]. *)
Example scenario_create :
  let w := Sample.worldWith Sample.signedIn (Sample.stateWith [] "Write report") in
  todos (ui (exec (Sample.keeping Sample.report) (handleAddTask (ui w)) w))
  = [Sample.report].
Proof. reflexivity. Qed.

(** Updating [t1] with [{completed: true}] replaces it where it stands. *)
Example scenario_update :
  let w := Sample.worldWith Sample.signedIn
             (Sample.stateWith [Sample.report; Sample.errand] "") in
  todos (ui (exec (Sample.keeping Sample.report)
               (onClickToggle (ui w) Sample.report) w))
  = [Todo.mk "t1" "Write report" High true None None; Sample.errand].
Proof. reflexivity. Qed.

(** Generating a schedule shows the one planned entry. *)
Example scenario_generate :
  let w := Sample.worldWith Sample.signedIn (Sample.stateWith [Sample.report] "") in
  let w' := exec (Sample.keeping Sample.report) (handleGenerateSchedule (ui w)) w in
  schedule (ui w') = [Sample.slot] ∧ showSchedule (ui w') = true
  ∧ loading (ui w') = false ∧ error (ui w') = None.
Proof. repeat split. Qed.

(** A rejected load leaves the list alone and reports the generic message. *)
Example scenario_offline_load :
  let w := Sample.worldWith Sample.expired (Sample.stateWith [Sample.report] "") in
  let w' := exec Sample.offline fetchTodos w in
  todos (ui w') = [Sample.report]
  ∧ error (ui w') = Some "Failed to load tasks. Please try again."
  ∧ console w'
    = [[LogText "Error acquiring token:"; LogExn (Error "interaction_required")];
       [LogText "API Error:"; LogText "Network Error"];
       [LogText "Error fetching todos:";
        LogExn (Rejected (AxiosError.mk "Network Error" None))];
       [LogExn (Rejected (AxiosError.mk "Network Error" None))]].
Proof. repeat split. Qed.

(** * Further properties *)

(** ** The request pipeline *)

Lemma or_false_default (flag : option bool) : or_false flag = default false flag.
Proof. by destruct flag as [[]|]. Qed.

Lemma apiClient_request_eq srv T call w :
  apiClient_request srv T call w =
    match srv T (network w) (outgoing (process_env w) (api w) call) with
    | inr response =>
        (inr response,
         mkWorld (process_env w) (api w) (ui w)
           (network w
              ++ [{| sent := outgoing (process_env w) (api w) call;
                     answer := Answered T response |}])
           (console w ++ interceptorLogs (process_env w) (api w) call))
    | inl error =>
        (inl (Rejected error),
         mkWorld (process_env w) (api w) (ui w)
           (network w
              ++ [{| sent := outgoing (process_env w) (api w) call;
                     answer := Failed error |}])
           (console w ++ interceptorLogs (process_env w) (api w) call
              ++ replicate (interceptors (api w)) (responseInterceptor_rejected error)))
    end.
Proof.
  unfold apiClient_request, outgoing, interceptorLogs.
  by destruct (runRequestInterceptors _ _ _ _) as [config logs].
Qed.

(** What an API operation leaves behind, whatever the backend answers. *)
Lemma exec_invoke srv w op :
  exec srv (invoke op) w =
    match srv (respOf op) (network w)
            (outgoing (process_env w) (api w) (callOf op)) with
    | inr response =>
        mkWorld (process_env w) (api w) (ui w)
          (network w
             ++ [{| sent := outgoing (process_env w) (api w) (callOf op);
                    answer := Answered (respOf op) response |}])
          (console w ++ interceptorLogs (process_env w) (api w) (callOf op))
    | inl error =>
        mkWorld (process_env w) (api w) (ui w)
          (network w
             ++ [{| sent := outgoing (process_env w) (api w) (callOf op);
                    answer := Failed error |}])
          (console w ++ interceptorLogs (process_env w) (api w) (callOf op)
             ++ replicate (interceptors (api w)) (responseInterceptor_rejected error)
             ++ [[LogText (logLabel op); LogExn (Rejected error)]])
    end.
Proof.
  destruct op; unfold_handler; rewrite apiClient_request_eq;
    rewrite ?or_false_default; simpl;
    match goal with
    | |- context [srv ?T ?history ?config] => destruct (srv T history config)
    end; simpl; by rewrite <- ?app_assoc.
Qed.

(** X1. Whatever the backend, the session and the number of registered
    interceptors, every API operation sends exactly one request, and that
    request has the method, path and body of the operation (the interceptors
    change none of them) and the base URL [REACT_APP_API_URL] when that
    variable is set and not empty, the default backend URL otherwise. *)
Theorem request_shape_of_every_operation (srv : Backend) (w : World)
    (op : ApiOperation) :
  ∃ ex,
    network (exec srv (invoke op) w) = network w ++ [ex]
    ∧ InternalAxiosRequestConfig.method (sent ex) = call_method (callOf op)
    ∧ InternalAxiosRequestConfig.url (sent ex) = call_url (callOf op)
    ∧ InternalAxiosRequestConfig.data (sent ex) = call_data (callOf op)
    ∧ (∀ url, process_env w !! "REACT_APP_API_URL" = Some url → url ≠ "" →
              InternalAxiosRequestConfig.baseURL (sent ex) = url)
    ∧ (process_env w !! "REACT_APP_API_URL" = None
       ∨ process_env w !! "REACT_APP_API_URL" = Some "" →
       InternalAxiosRequestConfig.baseURL (sent ex)
       = "https://todoapi.azurewebsites.net").
Proof.
  assert (∃ ex, network (exec srv (invoke op) w) = network w ++ [ex]
                ∧ sent ex = outgoing (process_env w) (api w) (callOf op))
    as (ex & Hnet & Hsent).
  { rewrite exec_invoke. destruct (srv _ _ _); by eexists. }
  exists ex. split; [done|]. rewrite Hsent.
  destruct (outgoing_frame (process_env w) (api w) (callOf op))
    as (Hbase & -> & -> & ->).
  split; [done|]. split; [done|]. split; [done|]. split.
  - intros url Hurl Hne. rewrite Hbase. unfold API_BASE_URL. rewrite Hurl.
    by destruct url.
  - intros [Hurl|Hurl]; rewrite Hbase; unfold API_BASE_URL; by rewrite Hurl.
Qed.





Lemma runRequestInterceptors_logs_acquired w token n config :
  tokenAcquired w token →
  (runRequestInterceptors n (process_env w) (msalInstance (api w)) config).2 = [].
Proof.
  intros (instance & account0 & others & response & Hm & Ha & Hr & _).
  rewrite Hm. revert config.
  induction n as [|n IH]; intros config; simpl; [done|].
  unfold requestInterceptor at 1. rewrite Ha, Hr.
  specialize (IH (set_header "Authorization"
                    ("Bearer " +:+ AuthenticationResult.accessToken response) config)).
  destruct (runRequestInterceptors n _ _ _) as [config2 logs2].
  simpl in *. by subst.
Qed.

Lemma runRequestInterceptors_logs_caught env msal error n config :
  (∀ config,
     requestInterceptor env msal config
     = (config, [[LogText "Error acquiring token:"; LogExn error]])) →
  (runRequestInterceptors n env msal config).2
  = replicate n [LogText "Error acquiring token:"; LogExn error].
Proof.
  intros Herror. revert config.
  induction n as [|n IH]; intros config; simpl; [done|].
  rewrite Herror. specialize (IH config).
  destruct (runRequestInterceptors n _ _ config) as [config2 logs2].
  simpl in *. by subst.
Qed.

(** X4. Token acquisition is attempted once per registered request
    interceptor, and a failure is logged with the error that was caught:
    with [n] interceptors registered, one request logs
    ["Error acquiring token:"] [n] times, each time with the error
    "MSAL instance not initialized" when there is no instance, with
    "No user account found" when no account is signed in, and with the very
    error silent acquisition threw otherwise.  When acquisition succeeds,
    the interceptors log nothing. *)
Theorem token_failure_logged_per_interceptor (w : World) (call : Call) :
  (∀ token, tokenAcquired w token →
            interceptorLogs (process_env w) (api w) call = [])
  ∧ (msalInstance (api w) = None →
     interceptorLogs (process_env w) (api w) call
     = replicate (interceptors (api w))
         [LogText "Error acquiring token:";
          LogExn (Error "MSAL instance not initialized")])
  ∧ (∀ instance,
       msalInstance (api w) = Some instance →
       PublicClientApplication.getAllAccounts instance = [] →
       interceptorLogs (process_env w) (api w) call
       = replicate (interceptors (api w))
           [LogText "Error acquiring token:"; LogExn (Error "No user account found")])
  ∧ (∀ instance account0 others error,
       msalInstance (api w) = Some instance →
       PublicClientApplication.getAllAccounts instance = account0 :: others →
       PublicClientApplication.acquireTokenSilent instance
         (SilentRequest.mk (ApiRequest.scopes (apiRequest (process_env w))) account0)
       = inl error →
       interceptorLogs (process_env w) (api w) call
       = replicate (interceptors (api w))
           [LogText "Error acquiring token:"; LogExn error]).
Proof.
  unfold interceptorLogs. split; [|split; [|split]].
  - intros token Hacq. by eapply runRequestInterceptors_logs_acquired.
  - intros Hm. apply runRequestInterceptors_logs_caught.
    intros config. unfold requestInterceptor. by rewrite Hm.
  - intros instance Hm Ha. apply runRequestInterceptors_logs_caught.
    intros config. unfold requestInterceptor. by rewrite Hm, Ha.
  - intros instance account0 others error Hm Ha Hr.
    apply runRequestInterceptors_logs_caught.
    intros config. unfold requestInterceptor. by rewrite Hm, Ha, Hr.
Qed.

Lemma token_failure_logged_per_interceptor_witness :
  let once := Sample.worldWith Sample.signedIn initialState in
  let twice :=
    mkWorld ∅ (initializeApi Sample.expired (initializeApi Sample.signedIn apiModule0))
      initialState [] [] in
  let nobody := PublicClientApplication.mk [] (λ _, inr (AuthenticationResult.mk "tok-0")) in
  let signedOut := Sample.worldWith nobody initialState in
  let call := callOf listTasks in
  tokenAcquired once "tok-1"
  ∧ interceptorLogs (process_env once) (api once) call = []
  ∧ interceptorLogs (process_env twice) (api twice) call
    = [[LogText "Error acquiring token:"; LogExn (Error "interaction_required")];
       [LogText "Error acquiring token:"; LogExn (Error "interaction_required")]]
  ∧ interceptorLogs (process_env signedOut) (api signedOut) call
    = [[LogText "Error acquiring token:"; LogExn (Error "No user account found")]].
Proof.
  intros once twice nobody signedOut call.
  assert (tokenAcquired once "tok-1") as H1.
  { exists Sample.signedIn, Sample.alice, [], (AuthenticationResult.mk "tok-1").
    repeat split. }
  split; [exact H1|]. split; [|split].
  - exact (proj1 (token_failure_logged_per_interceptor once call) _ H1).
  - exact (proj2 (proj2 (proj2 (token_failure_logged_per_interceptor twice call)))
             Sample.expired Sample.alice [] (Error "interaction_required")
             eq_refl eq_refl eq_refl).
  - exact (proj1 (proj2 (proj2 (token_failure_logged_per_interceptor signedOut call)))
             nobody eq_refl eq_refl).
Defined.

(** ** The controller, operation by operation *)

(** X5. No operation of the controller retries or batches: a handler makes
    no request at all when its guard refuses (blank task input, empty task
    list) and exactly one otherwise, whether the backend fulfils or rejects
    it.  That request is the one of the API operation behind the handler: a
    toggle sends only [completed], negated; a schedule request carries the
    whole task list and the habits of the render the handler was created in. *)
Theorem one_request_per_operation (srv : Backend) (op : Operation)
    (s : State) (w : World) :
  match apiCallOf op s with
  | None => network (exec srv (handlerOf op s) w) = network w
  | Some apiOp =>
      ∃ ex,
        network (exec srv (handlerOf op s) w) = network w ++ [ex]
        ∧ InternalAxiosRequestConfig.method (sent ex) = call_method (callOf apiOp)
        ∧ InternalAxiosRequestConfig.url (sent ex) = call_url (callOf apiOp)
        ∧ InternalAxiosRequestConfig.data (sent ex) = call_data (callOf apiOp)
  end.
Proof.
  destruct op as [| |id currentStatus|id|]; simpl.
  - unfold_handler. case_reply; (eexists; split; [done|]); apply outgoing_frame.
  - unfold exec, handleAddTask. rewrite truthy_trim.
    destruct (isBlank (taskInput s)); simpl; [done|].
    unfold_handler. case_reply; (eexists; split; [done|]); apply outgoing_frame.
  - unfold_handler. case_reply; (eexists; split; [done|]); apply outgoing_frame.
  - unfold_handler. case_reply; (eexists; split; [done|]); apply outgoing_frame.
  - unfold exec, handleGenerateSchedule.
    destruct (todos s) as [|t l] eqn:Htodos; simpl; [done|].
    unfold_handler. case_reply; (eexists; split; [done|]); apply outgoing_frame.
Qed.

Lemma loading_false_after (srv : Backend) (op : Operation) (w : World) :
  loading (ui w) = false →
  loading (ui (exec srv (handlerOf op (ui w)) w)) = false.
Proof.
  intros Hidle. destruct op as [| |id currentStatus|id|]; simpl.
  - unfold_handler. by case_reply.
  - unfold exec, handleAddTask.
    destruct (truthy (trim (taskInput (ui w)))); simpl; [|done].
    unfold_handler. by case_reply.
  - unfold_handler. by case_reply.
  - unfold_handler. by case_reply.
  - unfold exec, handleGenerateSchedule.
    destruct (length (todos (ui w)) =? 0)%nat; simpl; [done|].
    unfold_handler. by case_reply.
Qed.

(** X6. The busy flag never sticks: started idle, the controller is idle
    again after any sequence of operations, whatever the backend answers to
    each of them. *)
Theorem idle_after_any_sequence (srv : Backend) (ops : list Operation)
    (w : World) :
  loading (ui w) = false →
  loading (ui (runAll srv ops w)) = false.
Proof.
  unfold runAll. revert w.
  induction ops as [|op ops IH]; intros w Hidle; simpl; [done|].
  apply IH. by apply loading_false_after.
Qed.

Lemma idle_after_any_sequence_witness :
  let w := Sample.worldWith Sample.expired (Sample.stateWith [Sample.errand] "Write report") in
  loading (ui w) = false
  ∧ loading (ui (runAll Sample.offline [Load; Add; Delete "t2"; Generate] w)) = false.
Proof.
  intros w. split; [reflexivity|].
  apply (idle_after_any_sequence Sample.offline [Load; Add; Delete "t2"; Generate] w).
  reflexivity.
Defined.

Lemma error_known_after (srv : Backend) (op : Operation) (w : World) :
  errorIsKnown (ui w) →
  errorIsKnown (ui (exec srv (handlerOf op (ui w)) w)).
Proof.
  assert (∀ s message, message ∈ knownMessages →
            error s = Some message → errorIsKnown s) as Hknown.
  { intros s message Hin Hs m Hm. congruence. }
  assert (∀ s, error s = None → errorIsKnown s) as Hnone.
  { intros s Hs m Hm. congruence. }
  intros Hw. destruct op as [| |id currentStatus|id|]; simpl.
  - unfold_handler. case_reply; [|by apply Hnone].
    eapply Hknown; [|done]. apply list_elem_of_In. simpl. auto 10.
  - unfold exec, handleAddTask.
    destruct (truthy (trim (taskInput (ui w)))); simpl; [|done].
    unfold_handler. case_reply; [|by apply Hnone].
    eapply Hknown; [|done]. apply list_elem_of_In. simpl. auto 10.
  - unfold_handler. case_reply; [|by apply Hnone].
    eapply Hknown; [|done]. apply list_elem_of_In. simpl. auto 10.
  - unfold_handler. case_reply; [|by apply Hnone].
    eapply Hknown; [|done]. apply list_elem_of_In. simpl. auto 10.
  - unfold exec, handleGenerateSchedule.
    destruct (length (todos (ui w)) =? 0)%nat; simpl.
    + eapply Hknown; [|done]. apply list_elem_of_In. simpl. auto 10.
    + unfold_handler. case_reply; [|by apply Hnone].
      eapply Hknown; [|done]. apply list_elem_of_In. simpl. auto 10.
Qed.

(** X7. Nothing the backend or the identity library says ever reaches the
    user: after any sequence of operations the error cell is empty or holds
    one of the six literal messages of the component, whatever errors were
    thrown along the way. *)
Theorem error_is_always_a_fixed_message (srv : Backend) (ops : list Operation)
    (w : World) :
  (∀ message, error (ui w) = Some message → message ∈ knownMessages) →
  ∀ message,
    error (ui (runAll srv ops w)) = Some message → message ∈ knownMessages.
Proof.
  unfold runAll. revert w.
  induction ops as [|op ops IH]; intros w Hw; simpl; [done|].
  apply IH. by apply error_known_after.
Qed.

Lemma error_is_always_a_fixed_message_witness :
  let w := startup ∅ Sample.expired in
  let w' := runAll Sample.offline [Load; Generate] w in
  (∀ message, error (ui w) = Some message → message ∈ knownMessages)
  ∧ error (ui w') = Some "Please add some tasks before generating a schedule."
  ∧ "Please add some tasks before generating a schedule." ∈ knownMessages.
Proof.
  intros w w'.
  assert (∀ message, error (ui w) = Some message → message ∈ knownMessages)
    as Hw by (intros message H; discriminate H).
  split; [exact Hw|]. split; [reflexivity|].
  apply (error_is_always_a_fixed_message Sample.offline [Load; Generate] w Hw).
  reflexivity.
Defined.

(** X8. The form survives every operation but a successful add.  No
    operation changes the habits; load, toggle, delete and generate leave the
    task input and the priority alone; an add that the backend rejects keeps
    what was typed and chosen, so it can be submitted again; an add that
    succeeds empties the input and puts the priority back to Medium. *)
Theorem form_fields_after_an_operation (srv : Backend) (op : Operation)
    (s : State) (w : World) :
  let w' := exec srv (handlerOf op s) w in
  habits (ui w') = habits (ui w)
  ∧ (op ≠ Add →
     taskInput (ui w') = taskInput (ui w)
     ∧ priorityInput (ui w') = priorityInput (ui w))
  ∧ (∀ err, op = Add → rejectedWith srv (handlerOf op s) w err →
            taskInput (ui w') = taskInput (ui w)
            ∧ priorityInput (ui w') = priorityInput (ui w))
  ∧ (∀ T response, op = Add → answeredWith srv (handlerOf op s) w T response →
                   taskInput (ui w') = "" ∧ priorityInput (ui w') = Medium).
Proof.
  destruct op as [| |id currentStatus|id|]; simpl.
  - unfold_handler. by case_reply.
  - split; [|split; [done|split]].
    + unfold exec, handleAddTask.
      destruct (truthy (trim (taskInput s))); simpl; [|done].
      unfold_handler. by case_reply.
    + intros err _ H. destruct H as [config H]. revert H.
      unfold exec, handleAddTask.
      destruct (truthy (trim (taskInput s))); simpl.
      * unfold_handler. case_reply; [done|].
        intros H%app_inv_head. simplify_eq.
      * intros H. by apply app_singleton_neq in H.
    + intros T response _ H. destruct H as [config H]. revert H.
      unfold exec, handleAddTask.
      destruct (truthy (trim (taskInput s))); simpl.
      * unfold_handler. case_reply; [|done].
        intros H%app_inv_head. simplify_eq.
      * intros H. by apply app_singleton_neq in H.
  - unfold_handler. by case_reply.
  - unfold_handler. by case_reply.
  - unfold exec, handleGenerateSchedule.
    destruct (length (todos s) =? 0)%nat; simpl; [done|].
    unfold_handler. by case_reply.
Qed.

Lemma form_fields_after_an_operation_witness :
  let s := Sample.stateWith [Sample.errand] "Write report" in
  let w := Sample.worldWith Sample.signedIn s in
  let err := AxiosError.mk "Network Error" None in
  let w' := exec Sample.offline (handlerOf Add s) w in
  rejectedWith Sample.offline (handlerOf Add s) w err
  ∧ taskInput (ui w') = "Write report"
  ∧ priorityInput (ui w') = High.
Proof.
  intros s w err w'.
  assert (rejectedWith Sample.offline (handlerOf Add s) w err) as H
    by (eexists; reflexivity).
  split; [exact H|].
  pose proof (form_fields_after_an_operation Sample.offline Add s w) as F.
  cbv zeta in F. destruct F as (_ & _ & Frejected & _).
  exact (Frejected err eq_refl H).
Defined.



(** X10. Loading replaces the task list wholesale by what the backend
    sent: the previous entries are not merged in, and a response without
    content empties the list without any error.  The schedule is untouched. *)
Theorem load_replaces_the_list (srv : Backend) (w : World)
    (listed : AxiosResponse.t TTodos) :
  answeredWith srv fetchTodos w TTodos listed →
  let w' := exec srv fetchTodos w in
  (∀ falsy, AxiosResponse.data listed = inl falsy → todos (ui w') = [])
  ∧ (∀ array, AxiosResponse.data listed = inr array → todos (ui w') = array)
  ∧ schedule (ui w') = schedule (ui w)
  ∧ showSchedule (ui w') = showSchedule (ui w)
  ∧ errorAlert (render (ui w')) = None.
Proof.
  intros H. observe H.
  repeat split; intros body Hbody; by rewrite Hbody.
Qed.

Lemma load_replaces_the_list_witness :
  let w := Sample.worldWith Sample.signedIn
             (Sample.stateWith [Sample.errand; Sample.report] "") in
  let srv : Backend :=
    λ T _ _,
      match T with
      | TTodos => inr (AxiosResponse.mk TTodos (inl js_empty_string) 204)
      | _ => inl (AxiosError.mk "Not Found" None)
      end in
  answeredWith srv fetchTodos w TTodos (AxiosResponse.mk TTodos (inl js_empty_string) 204)
  ∧ todos (ui w) = [Sample.errand; Sample.report]
  ∧ todos (ui (exec srv fetchTodos w)) = [].
Proof.
  intros w srv.
  assert (answeredWith srv fetchTodos w TTodos
            (AxiosResponse.mk TTodos (inl js_empty_string) 204)) as H
    by (eexists; reflexivity).
  split; [exact H|]. split; [reflexivity|].
  pose proof (load_replaces_the_list srv w _ H) as H'. cbv zeta in H'.
  apply (proj1 H' js_empty_string). reflexivity.
Defined.

(** X11. A fulfilled schedule request replaces the schedule wholesale, sets
    the show flag and leaves the task list alone.  The schedule panel is
    then rendered with exactly the entries the backend sent, in their order,
    unless there are none: after an empty array or a response without
    content the flag is set but no panel and no error is shown. *)
Theorem generate_replaces_the_schedule (srv : Backend) (s : State) (w : World)
    (planned : AxiosResponse.t TSchedule) :
  answeredWith srv (handleGenerateSchedule s) w TSchedule planned →
  let w' := exec srv (handleGenerateSchedule s) w in
  showSchedule (ui w') = true
  ∧ todos (ui w') = todos (ui w)
  ∧ errorAlert (render (ui w')) = None
  ∧ (∀ falsy, AxiosResponse.data planned = inl falsy →
              schedule (ui w') = [] ∧ schedulePanel (render (ui w')) = None)
  ∧ (AxiosResponse.data planned = inr [] →
     schedule (ui w') = [] ∧ schedulePanel (render (ui w')) = None)
  ∧ (∀ item items, AxiosResponse.data planned = inr (item :: items) →
       schedule (ui w') = item :: items
       ∧ schedulePanel (render (ui w')) = Some (item :: items)).
Proof.
  intros [config H]. revert H. unfold exec, handleGenerateSchedule.
  destruct (length (todos s) =? 0)%nat; simpl.
  { intros H. by apply app_singleton_neq in H. }
  unfold_handler. case_reply; intros H%app_inv_head; simplify_eq; simpl.
  repeat split; try (intros; match goal with H : AxiosResponse.data _ = _ |- _ =>
                                 by rewrite H end).
Qed.

Lemma generate_replaces_the_schedule_witness :
  let s := Sample.stateWith [Sample.report] "" in
  let w := Sample.worldWith Sample.signedIn s in
  let quiet := Sample.answering Sample.report in
  let planning := Sample.keeping Sample.report in
  answeredWith quiet (handleGenerateSchedule s) w TSchedule
    (AxiosResponse.mk TSchedule (inl js_empty_string) 204)
  ∧ answeredWith planning (handleGenerateSchedule s) w TSchedule
      (AxiosResponse.mk TSchedule (inr [Sample.slot]) 200)
  ∧ showSchedule (ui (exec quiet (handleGenerateSchedule s) w)) = true
  ∧ schedulePanel (render (ui (exec quiet (handleGenerateSchedule s) w))) = None
  ∧ schedulePanel (render (ui (exec planning (handleGenerateSchedule s) w)))
    = Some [Sample.slot].
Proof.
  intros s w quiet planning.
  assert (answeredWith quiet (handleGenerateSchedule s) w TSchedule
            (AxiosResponse.mk TSchedule (inl js_empty_string) 204)) as H1
    by (eexists; reflexivity).
  assert (answeredWith planning (handleGenerateSchedule s) w TSchedule
            (AxiosResponse.mk TSchedule (inr [Sample.slot]) 200)) as H2
    by (eexists; reflexivity).
  split; [exact H1|]. split; [exact H2|].
  pose proof (generate_replaces_the_schedule quiet s w _ H1) as Q. cbv zeta in Q.
  pose proof (generate_replaces_the_schedule planning s w _ H2) as P. cbv zeta in P.
  destruct Q as (Qshow & _ & _ & Qfalsy & _).
  destruct P as (_ & _ & _ & _ & _ & Pitems).
  split; [exact Qshow|]. split.
  - exact (proj2 (Qfalsy js_empty_string eq_refl)).
  - exact (proj2 (Pitems Sample.slot [] eq_refl)).
Defined.

Lemma length_filter_other_ids (id : string) (l : list Todo.t) :
  length (filter (λ todo, Todo.id todo ≠ id) l)
    + length (filter (λ todo, Todo.id todo = id) l)
  = length l.
Proof.
  induction l as [|t l IH]; [done|].
  destruct (decide (Todo.id t = id)) as [Heq|Hne].
  - rewrite filter_cons_False by (intros H; by apply H).
    rewrite (filter_cons_True (λ todo, Todo.id todo = id)) by done.
    simpl. lia.
  - rewrite filter_cons_True by done.
    rewrite (filter_cons_False (λ todo, Todo.id todo = id)) by done.
    simpl. lia.
Qed.

(** X12. A fulfilled delete removes every entry with the id, also when the
    id occurs more than once, and nothing else: what is left is the list of
    the handler's render without the entries that carry the id, every other
    entry kept as often as it occurred and in its order.  So the new list is
    a sublist of the old one in which the id no longer occurs, shorter by
    exactly the number of entries that carried the id. *)
Theorem delete_removes_every_entry_with_the_id (srv : Backend) (s : State)
    (w : World) (id : string) (response : AxiosResponse.t TAny) :
  answeredWith srv (handleDeleteTodo s id) w TAny response →
  let w' := exec srv (handleDeleteTodo s id) w in
  todos (ui w') = filter (λ todo, Todo.id todo ≠ id) (todos s)
  ∧ (∀ t, t ∈ todos (ui w') ↔ t ∈ todos s ∧ Todo.id t ≠ id)
  ∧ (id ∉ (Todo.id <$> todos (ui w')))
  ∧ todos (ui w') `sublist_of` todos s
  ∧ length (todos (ui w')) + length (filter (λ todo, Todo.id todo = id) (todos s))
    = length (todos s)
  ∧ (∀ before t after,
       todos s = before ++ t :: after → Todo.id t ≠ id →
       todos (ui w')
       = filter (λ todo, Todo.id todo ≠ id) before
           ++ t :: filter (λ todo, Todo.id todo ≠ id) after).
Proof.
  intros H. observe H. split; [done|]. split; [|split; [|split; [|split]]].
  - intros t. rewrite list_elem_of_filter. tauto.
  - intros (t & Hid & Ht)%list_elem_of_fmap.
    apply list_elem_of_filter in Ht as [Hne _]. by apply Hne.
  - apply sublist_filter.
  - apply length_filter_other_ids.
  - intros before t after -> Hne.
    by rewrite filter_app, filter_cons_True.
Qed.

Lemma delete_removes_every_entry_with_the_id_witness :
  let twin := Todo.mk "t2" "Buy envelopes" Medium false None None in
  let s := Sample.stateWith [Sample.report; Sample.errand; Sample.report; twin] "" in
  let w := Sample.worldWith Sample.signedIn s in
  let srv := Sample.answering Sample.report in
  answeredWith srv (handleDeleteTodo s "t2") w TAny (AxiosResponse.mk TAny () 204)
  ∧ todos (ui (exec srv (handleDeleteTodo s "t2") w)) = [Sample.report; Sample.report]
  ∧ length (todos (ui (exec srv (handleDeleteTodo s "t2") w))) + 2 = 4.
Proof.
  intros twin s w srv.
  assert (answeredWith srv (handleDeleteTodo s "t2") w TAny
            (AxiosResponse.mk TAny () 204)) as H by (eexists; reflexivity).
  split; [exact H|].
  pose proof (delete_removes_every_entry_with_the_id srv s w "t2" _ H) as H'.
  cbv zeta in H'. destruct H' as (Heq & _ & _ & _ & Hlen & _).
  split; [exact Heq | exact Hlen].
Defined.

Lemma fmap_id_replace (id : string) (updatedTodo : Todo.t) (l : list Todo.t) :
  Todo.id updatedTodo = id →
  Todo.id <$> ((λ todo, if decide (Todo.id todo = id) then updatedTodo else todo) <$> l)
  = Todo.id <$> l.
Proof.
  intros Hid. induction l as [|t l IH]; [done|].
  rewrite !fmap_cons, IH. f_equal. case_decide; congruence.
Qed.

(** X13. The controller keeps the ids of the list unique as long as the
    backend plays along.  From a list with unique ids: a fulfilled delete
    leaves them unique; a fulfilled update whose returned task carries the id
    that was updated leaves the sequence of ids exactly as it was; a
    fulfilled add whose returned task carries an id not yet in the list
    leaves them unique. *)
Theorem unique_ids_are_preserved (srv : Backend) (s : State) (w : World) :
  NoDup (Todo.id <$> todos s) →
  (∀ id response,
     answeredWith srv (handleDeleteTodo s id) w TAny response →
     NoDup (Todo.id <$> todos (ui (exec srv (handleDeleteTodo s id) w))))
  ∧ (∀ id currentStatus response,
       answeredWith srv (handleToggleTodo s id currentStatus) w TTodo response →
       Todo.id (AxiosResponse.data response) = id →
       Todo.id <$> todos (ui (exec srv (handleToggleTodo s id currentStatus) w))
       = Todo.id <$> todos s)
  ∧ (∀ response,
       answeredWith srv (handleAddTask s) w TTodo response →
       Todo.id (AxiosResponse.data response) ∉ (Todo.id <$> todos s) →
       NoDup (Todo.id <$> todos (ui (exec srv (handleAddTask s) w)))).
Proof.
  intros Hnodup. split; [|split].
  - intros id response H. observe H.
    apply (sublist_NoDup _ (Todo.id <$> todos s)); [done|].
    apply fmap_sublist, sublist_filter.
  - intros id currentStatus response H Hid. observe H.
    by apply fmap_id_replace.
  - intros response [config H] Hfresh. revert H. unfold exec, handleAddTask.
    destruct (truthy (trim (taskInput s))); simpl.
    + unfold_handler. case_reply; intros H%app_inv_head; simplify_eq; simpl.
      rewrite fmap_app. apply NoDup_app. split; [done|]. split.
      * intros x Hx Hx'. apply list_elem_of_singleton in Hx'. by subst.
      * apply NoDup_singleton.
    + intros H. by apply app_singleton_neq in H.
Qed.

Lemma unique_ids_are_preserved_witness :
  let s := Sample.stateWith [Sample.errand] "Write report" in
  let w := Sample.worldWith Sample.signedIn s in
  let srv := Sample.answering Sample.report in
  NoDup (Todo.id <$> todos s)
  ∧ answeredWith srv (handleAddTask s) w TTodo (AxiosResponse.mk TTodo Sample.report 200)
  ∧ (Todo.id Sample.report ∉ (Todo.id <$> todos s))
  ∧ NoDup (Todo.id <$> todos (ui (exec srv (handleAddTask s) w))).
Proof.
  intros s w srv.
  assert (NoDup (Todo.id <$> todos s)) as Hnodup
    by (apply (bool_decide_unpack _); vm_compute; exact I).
  assert (answeredWith srv (handleAddTask s) w TTodo
            (AxiosResponse.mk TTodo Sample.report 200)) as H
    by (eexists; reflexivity).
  assert (Todo.id Sample.report ∉ (Todo.id <$> todos s)) as Hfresh
    by (apply (bool_decide_unpack _); vm_compute; exact I).
  split; [exact Hnodup|]. split; [exact H|]. split; [exact Hfresh|].
  exact (proj2 (proj2 (unique_ids_are_preserved srv s w Hnodup)) _ H Hfresh).
Defined.

(** ** Operations in sequence *)

Lemma handleAddTask_blank (srv : Backend) (s : State) (w : World) :
  isBlank (taskInput s) = true → exec srv (handleAddTask s) w = w.
Proof.
  intros Hblank. unfold exec, handleAddTask. by rewrite truthy_trim, Hblank.
Qed.

Lemma add_answered_input (srv : Backend) (s : State) (w : World)
    (T : RespTy) (response : AxiosResponse.t T) :
  answeredWith srv (handleAddTask s) w T response →
  taskInput (ui (exec srv (handleAddTask s) w)) = "".
Proof.
  intros [config H]. revert H. unfold exec, handleAddTask.
  destruct (truthy (trim (taskInput s))); simpl.
  - unfold_handler. case_reply; intros H%app_inv_head; by simplify_eq.
  - intros H. by apply app_singleton_neq in H.
Qed.

(** X14. Submitting twice does not add twice: once an add has succeeded,
    the form that is rendered next has an empty input, and submitting it
    again changes nothing and sends nothing, whatever the backend would
    answer. *)
Theorem resubmit_after_success_is_noop (srv srv' : Backend) (w : World)
    (T : RespTy) (response : AxiosResponse.t T) :
  answeredWith srv (handleAddTask (ui w)) w T response →
  let w' := exec srv (handleAddTask (ui w)) w in
  exec srv' (handleAddTask (ui w')) w' = w'.
Proof.
  intros H. simpl. apply handleAddTask_blank.
  by rewrite (add_answered_input srv (ui w) w T response H).
Qed.

Lemma resubmit_after_success_is_noop_witness :
  let w := Sample.worldWith Sample.signedIn (Sample.stateWith [] "Write report") in
  let srv := Sample.keeping Sample.report in
  let w' := exec srv (handleAddTask (ui w)) w in
  answeredWith srv (handleAddTask (ui w)) w TTodo (AxiosResponse.mk TTodo Sample.report 201)
  ∧ todos (ui w') = [Sample.report]
  ∧ exec srv (handleAddTask (ui w')) w' = w'.
Proof.
  intros w srv w'.
  assert (answeredWith srv (handleAddTask (ui w)) w TTodo
            (AxiosResponse.mk TTodo Sample.report 201)) as H
    by (eexists; reflexivity).
  split; [exact H|]. split; [reflexivity|].
  exact (resubmit_after_success_is_noop srv srv w TTodo _ H).
Defined.

(** X15. A handler writes the list of the render it was created in, not the
    list of the moment.  Whatever the list has become since that render, a
    fulfilled add sets it to the render's list followed by the returned task;
    so of two adds made from the same render only the task of the one that
    finishes last is in the list, although the backend created both. *)
Theorem add_from_a_stale_render_overwrites (srv : Backend) (s : State)
    (w : World) (first second : AxiosResponse.t TTodo) :
  answeredWith srv (handleAddTask s) w TTodo first →
  answeredWith srv (handleAddTask s) (exec srv (handleAddTask s) w) TTodo second →
  let w1 := exec srv (handleAddTask s) w in
  let w2 := exec srv (handleAddTask s) w1 in
  todos (ui w1) = todos s ++ [AxiosResponse.data first]
  ∧ todos (ui w2) = todos s ++ [AxiosResponse.data second]
  ∧ length (todos (ui w2)) = S (length (todos s)).
Proof.
  assert (∀ w0 response,
            answeredWith srv (handleAddTask s) w0 TTodo response →
            todos (ui (exec srv (handleAddTask s) w0))
            = todos s ++ [AxiosResponse.data response]) as Hadd.
  { intros w0 response [config H]. revert H. unfold exec, handleAddTask.
    destruct (truthy (trim (taskInput s))); simpl.
    - unfold_handler. case_reply; intros H%app_inv_head; by simplify_eq.
    - intros H. by apply app_singleton_neq in H. }
  intros H1 H2. simpl.
  rewrite (Hadd _ _ H1), (Hadd _ _ H2), length_app. simpl.
  split; [done|]. split; [done|]. lia.
Qed.

Lemma add_from_a_stale_render_overwrites_witness :
  let s := Sample.stateWith [Sample.errand] "Write report" in
  let w := Sample.worldWith Sample.signedIn s in
  let srv : Backend :=
    λ T history _,
      match T with
      | TTodo =>
          match history with
          | [] => inr (AxiosResponse.mk TTodo Sample.report 201)
          | _ => inr (AxiosResponse.mk TTodo
                        (Todo.mk "t3" "Write report" High false None None) 201)
          end
      | _ => inl (AxiosError.mk "Not Found" None)
      end in
  let w1 := exec srv (handleAddTask s) w in
  let w2 := exec srv (handleAddTask s) w1 in
  answeredWith srv (handleAddTask s) w TTodo (AxiosResponse.mk TTodo Sample.report 201)
  ∧ answeredWith srv (handleAddTask s) w1 TTodo
      (AxiosResponse.mk TTodo (Todo.mk "t3" "Write report" High false None None) 201)
  ∧ todos (ui w1) = [Sample.errand; Sample.report]
  ∧ todos (ui w2) = [Sample.errand; Todo.mk "t3" "Write report" High false None None].
Proof.
  intros s w srv w1 w2.
  assert (answeredWith srv (handleAddTask s) w TTodo
            (AxiosResponse.mk TTodo Sample.report 201)) as H1
    by (eexists; reflexivity).
  assert (answeredWith srv (handleAddTask s) w1 TTodo
            (AxiosResponse.mk TTodo
               (Todo.mk "t3" "Write report" High false None None) 201)) as H2
    by (eexists; reflexivity).
  split; [exact H1|]. split; [exact H2|].
  pose proof (add_from_a_stale_render_overwrites srv s w _ _ H1 H2) as H.
  cbv zeta in H. destruct H as (Hw1 & Hw2 & _).
  split; [exact Hw1 | exact Hw2].
Defined.

(** ** The habits form *)

(** X16. Changing a habit sets exactly the field that was named: reading
    that field gives the new value, every other habit reads as before, and
    nothing else of the component state changes. *)
Theorem habit_change_sets_one_field (field : HabitsKey.t)
    (value : HabitsValue field) (s : State) :
  let s' := handleHabitChange field value s in
  habitsGet field (habits s') = value
  ∧ (∀ other, other ≠ field →
              habitsGet other (habits s') = habitsGet other (habits s))
  ∧ todos s' = todos s
  ∧ schedule s' = schedule s
  ∧ loading s' = loading s
  ∧ error s' = error s
  ∧ showSchedule s' = showSchedule s
  ∧ taskInput s' = taskInput s
  ∧ priorityInput s' = priorityInput s.
Proof.
  simpl. split; [by destruct field|]. split; [|done].
  intros other Hne. by destruct field, other.
Qed.

(** X17. Habit changes never overwrite each other: the updater is applied
    to the habits of the moment, so two changes to different fields give the
    same habits in either order, and both values are there afterwards. *)
Theorem habit_changes_commute (field1 field2 : HabitsKey.t)
    (value1 : HabitsValue field1) (value2 : HabitsValue field2) (s : State) :
  field1 ≠ field2 →
  handleHabitChange field2 value2 (handleHabitChange field1 value1 s)
  = handleHabitChange field1 value1 (handleHabitChange field2 value2 s)
  ∧ habitsGet field1
      (habits (handleHabitChange field2 value2 (handleHabitChange field1 value1 s)))
    = value1
  ∧ habitsGet field2
      (habits (handleHabitChange field2 value2 (handleHabitChange field1 value1 s)))
    = value2.
Proof.
  intros Hne. by destruct field1, field2.
Qed.

Lemma habit_changes_commute_witness :
  let s := handleHabitChange HabitsKey.focusArea "Dev"
             (handleHabitChange HabitsKey.breakDuration 20%Z initialState) in
  HabitsKey.breakDuration ≠ HabitsKey.focusArea
  ∧ habits s = Habits.mk "09:00" "17:00" 20%Z 60%Z "Dev"
  ∧ s = handleHabitChange HabitsKey.breakDuration 20%Z
          (handleHabitChange HabitsKey.focusArea "Dev" initialState).
Proof.
  intros s.
  assert (HabitsKey.breakDuration ≠ HabitsKey.focusArea) as Hne by discriminate.
  split; [exact Hne|]. split; [reflexivity|].
  exact (proj1 (habit_changes_commute HabitsKey.breakDuration HabitsKey.focusArea
                  20%Z "Dev" initialState Hne)).
Defined.

(** X18. The schedule request carries the habits as they are when the
    request is made: after a habit change, generating from the render that
    follows posts the task list together with habits in which the changed
    field has its new value and every other field its old one. *)
Theorem schedule_request_carries_changed_habits (srv : Backend) (w : World)
    (field : HabitsKey.t) (value : HabitsValue field) :
  todos (ui w) ≠ [] →
  let w1 := sync (handleHabitChange field value) w in
  ∃ ex sentHabits,
    network (exec srv (handleGenerateSchedule (ui w1)) w1) = network w ++ [ex]
    ∧ InternalAxiosRequestConfig.data (sent ex)
      = SchedulePayload (todos (ui w)) sentHabits
    ∧ habitsGet field sentHabits = value
    ∧ (∀ other, other ≠ field →
                habitsGet other sentHabits = habitsGet other (habits (ui w))).
Proof.
  intros Htodos. simpl. unfold exec, handleGenerateSchedule. simpl.
  destruct (todos (ui w)) as [|t l] eqn:Hlist; [done|]. simpl.
  unfold_handler. case_reply;
    (eexists; exists (habitsSpread field value (habits (ui w))); split; [done|]);
    simpl; (split; [apply outgoing_frame|]);
    (split; [by destruct field|]);
    intros other Hne; by destruct field, other.
Qed.

Lemma schedule_request_carries_changed_habits_witness :
  let w := Sample.worldWith Sample.signedIn (Sample.stateWith [Sample.report] "") in
  let w1 := sync (handleHabitChange HabitsKey.workEndTime "18:30") w in
  todos (ui w) ≠ []
  ∧ ∃ ex sentHabits,
      network (exec Sample.offline (handleGenerateSchedule (ui w1)) w1) = [ex]
      ∧ InternalAxiosRequestConfig.data (sent ex)
        = SchedulePayload [Sample.report] sentHabits
      ∧ Habits.workEndTime sentHabits = "18:30".
Proof.
  intros w w1.
  assert (todos (ui w) ≠ []) as Hne by discriminate.
  split; [exact Hne|].
  destruct (schedule_request_carries_changed_habits Sample.offline w
              HabitsKey.workEndTime "18:30" Hne)
    as (ex & sentHabits & Hnet & Hdata & Hget & _).
  exists ex, sentHabits. split; [exact Hnet|]. split; [exact Hdata | exact Hget].
Defined.

(** ** What the user sees *)

(** X19. The first screen.  The component mounts in the world index.tsx
    sets up and loads the tasks.  If the load is rejected, the screen shows
    the load error and "no tasks yet", with no Generate button; if it brings
    tasks, the screen shows exactly those rows, their count and the Generate
    button, and no error; if it brings none, "no tasks yet" without an error.
    In every case the controls are enabled again and no schedule is shown. *)
Theorem first_screen_after_mount (srv : Backend) (env : gmap string string)
    (instance : PublicClientApplication.t) :
  let w0 := startup env instance in
  let screen := render (ui (exec srv fetchTodos w0)) in
  (∀ err,
     rejectedWith srv fetchTodos w0 err →
     screen = mkView (Some "Failed to load tasks. Please try again.")
                0 NoTasksYet false false None false)
  ∧ (∀ listed t l,
       answeredWith srv fetchTodos w0 TTodos listed →
       AxiosResponse.data listed = inr (t :: l) →
       screen = mkView None (S (length l)) (TaskRows (t :: l)) false true None false)
  ∧ (∀ listed,
       answeredWith srv fetchTodos w0 TTodos listed →
       AxiosResponse.data listed = inr [] ∨ (∃ falsy, AxiosResponse.data listed = inl falsy) →
       screen = mkView None 0 NoTasksYet false false None false).
Proof.
  simpl. split; [|split].
  - intros err [config H]. revert H. unfold_handler.
    case_reply; intros H; by simplify_eq.
  - intros listed t l [config H] Hdata. revert H. unfold_handler.
    case_reply; intros H; simplify_eq. simpl. by rewrite Hdata.
  - intros listed [config H] Hdata. revert H. unfold_handler.
    case_reply; intros H; simplify_eq. simpl.
    by destruct Hdata as [->|[falsy ->]].
Qed.

Lemma first_screen_after_mount_witness :
  let w0 := startup ∅ Sample.signedIn in
  rejectedWith Sample.offline fetchTodos w0 (AxiosError.mk "Network Error" None)
  ∧ answeredWith (Sample.keeping Sample.report) fetchTodos w0 TTodos
      (AxiosResponse.mk TTodos (inr [Sample.report]) 200)
  ∧ errorAlert (render (ui (exec Sample.offline fetchTodos w0)))
    = Some "Failed to load tasks. Please try again."
  ∧ taskList (render (ui (exec (Sample.keeping Sample.report) fetchTodos w0)))
    = TaskRows [Sample.report].
Proof.
  intros w0.
  assert (rejectedWith Sample.offline fetchTodos w0
            (AxiosError.mk "Network Error" None)) as H1 by (eexists; reflexivity).
  assert (answeredWith (Sample.keeping Sample.report) fetchTodos w0 TTodos
            (AxiosResponse.mk TTodos (inr [Sample.report]) 200)) as H2
    by (eexists; reflexivity).
  split; [exact H1|]. split; [exact H2|].
  pose proof (first_screen_after_mount Sample.offline ∅ Sample.signedIn) as A.
  pose proof (first_screen_after_mount (Sample.keeping Sample.report) ∅ Sample.signedIn)
    as B.
  cbv zeta in A, B. destruct A as (A & _). destruct B as (_ & B & _).
  split.
  - fold w0 in A. by rewrite (A _ H1).
  - fold w0 in B. by rewrite (B _ Sample.report [] H2 eq_refl).
Defined.

(** X20. The validation message of schedule generation cannot be produced
    from the screen.  The Generate button is rendered exactly when the task
    list is not empty.  A click on it reaches the handler only when the
    button is rendered and enabled (not loading): then the schedule request
    is always sent and the message is not set.  While loading, or without a
    button, a click changes nothing and sends nothing. *)
Theorem generate_button_always_sends (srv : Backend) (w : World) :
  let w' := exec srv (clickGenerate (ui w)) w in
  (generateButton (render (ui w)) = true ↔ todos (ui w) ≠ [])
  ∧ (generateButton (render (ui w)) = true →
     controlsDisabled (render (ui w)) = false →
     w' = exec srv (handleGenerateSchedule (ui w)) w
     ∧ (∃ ex, network w' = network w ++ [ex])
     ∧ error (ui w') ≠ Some "Please add some tasks before generating a schedule.")
  ∧ (generateButton (render (ui w)) = false
     ∨ controlsDisabled (render (ui w)) = true →
     w' = w).
Proof.
  cbv zeta. unfold clickGenerate. simpl. split; [|split].
  - by destruct (todos (ui w)).
  - intros Hbutton ->. rewrite Hbutton. simpl. split; [done|].
    unfold exec, handleGenerateSchedule.
    destruct (todos (ui w)) as [|t l] eqn:Hlist; [done|]. simpl.
    unfold_handler. case_reply; (split; [by eexists|done]).
  - intros [->| ->]; [done|]. by rewrite andb_false_r.
Qed.

Lemma generate_button_always_sends_witness :
  let idle := Sample.worldWith Sample.signedIn (Sample.stateWith [Sample.report] "") in
  let busy :=
    Sample.worldWith Sample.signedIn
      (mkState [Sample.report] [] true None false "" Medium (habits initialState)) in
  let idle' := exec Sample.offline (clickGenerate (ui idle)) idle in
  generateButton (render (ui idle)) = true
  ∧ controlsDisabled (render (ui idle)) = false
  ∧ (∃ ex, network idle' = [ex])
  ∧ error (ui idle') ≠ Some "Please add some tasks before generating a schedule."
  ∧ controlsDisabled (render (ui busy)) = true
  ∧ exec Sample.offline (clickGenerate (ui busy)) busy = busy.
Proof.
  intros idle busy idle'.
  pose proof (generate_button_always_sends Sample.offline idle) as A.
  pose proof (generate_button_always_sends Sample.offline busy) as B.
  cbv zeta in A, B.
  destruct A as (_ & A & _). destruct B as (_ & _ & B).
  destruct (A eq_refl eq_refl) as (_ & Hnet & Herr).
  split; [reflexivity|]. split; [reflexivity|].
  split; [exact Hnet|]. split; [exact Herr|]. split; [reflexivity|].
  exact (B (or_intror eq_refl)).
Defined.
